(** * UMich consumer sentiment: the transform pipeline

    A shallow embedding of [src/transforms/sentiment/main.py] and
    [src/transforms/sentiment/test.py], and the properties of the date and
    number normalisers and of the three dataset processors.

    Conventions of the embedding.
    - A Python [str] is a Rocq [string]; each [ascii] stands for the code
      point of the same number (U+0000 to U+00FF).
    - Python's [None] where a string is expected is [None : option string].
    - A raised exception is [Raise e] in the [result] type; the statements of
      a function body are sequenced with [x <- e1 ;; e2], which stops at the
      first exception, as Python does.
    - The collaborators that are not part of this repository ([float],
      [csv.DictReader], [validate], [assert_valid_month], [upload_data],
      [publish]) are variables of the section that holds the processors. *)

From Stdlib Require Import ZArith Ascii String List Bool Lia.
From stdpp Require Import base strings gmap.

Local Open Scope string_scope.
Local Open Scope list_scope.
Local Open Scope Z_scope.

(** ** Exceptions *)

(** The argument of an exception.  [invalid_int_literal s] stands for the text
    "invalid literal for int() with base 10: " followed by [repr(s)], and
    [int_digit_limit n] for the text CPython gives when a literal of [n]
    digits exceeds the conversion limit. *)
Inductive message :=
  | text (s : string)
  | invalid_int_literal (arg : string)
  | int_digit_limit (digits : nat).

Inductive exn :=
  | ValueError (m : message)
  | AttributeError (m : message)
  | OtherError (class : string) (m : message).

Definition is_ValueError (e : exn) : bool :=
  match e with ValueError _ => true | _ => false end.

Inductive result (A : Type) :=
  | Ok (a : A)
  | Raise (e : exn).
Arguments Ok {A} a.
Arguments Raise {A} e.

Definition rbind {A B} (r : result A) (k : A -> result B) : result B :=
  match r with
  | Ok a => k a
  | Raise e => Raise e
  end.

Notation "x <- e1 ;; e2" := (rbind e1 (fun x => e2))
  (at level 100, e1 at next level, right associativity).

(** ** Strings: [str.strip], [int], [str] and the format specifications *)

Definition code (c : ascii) : Z := Z.of_nat (nat_of_ascii c).

(** [str.isspace] on one character, for the code points below 256:
    TAB, LF, VT, FF, CR, FS, GS, RS, US, SPACE, NEL and NBSP. *)
Definition isspace (c : ascii) : bool :=
  let n := code c in
  ((9 <=? n) && (n <=? 13)) || ((28 <=? n) && (n <=? 32))
  || (n =? 133) || (n =? 160).

Fixpoint lstrip (s : string) : string :=
  match s with
  | String c s' => if isspace c then lstrip s' else s
  | EmptyString => EmptyString
  end.

Fixpoint rstrip (s : string) : string :=
  match s with
  | EmptyString => EmptyString
  | String c s' =>
      match rstrip s' with
      | EmptyString => if isspace c then EmptyString else String c EmptyString
      | r => String c r
      end
  end.

(** [s.strip()] *)
Definition strip (s : string) : string := rstrip (lstrip s).

(** [v.strip()] on a value that is a string or [None]. *)
Definition strip_value (v : option string) : result string :=
  match v with
  | Some s => Ok (strip s)
  | None => Raise (AttributeError (text "'NoneType' object has no attribute 'strip'"))
  end.

(** Truth value of a string: the empty string is false. *)
Definition truthy (s : string) : bool :=
  match s with EmptyString => false | _ => true end.

Definition is_digit (c : ascii) : bool := (48 <=? code c) && (code c <=? 57).
Definition digit_value (c : ascii) : Z := code c - 48.

(** C's [isspace] in the C locale, which the integer parser uses. *)
Definition c_isspace (c : ascii) : bool :=
  let n := code c in ((9 <=? n) && (n <=? 13)) || (n =? 32).

Fixpoint skip_c_spaces (s : string) : string :=
  match s with
  | String c s' => if c_isspace c then skip_c_spaces s' else s
  | EmptyString => EmptyString
  end.

Fixpoint string_forallb (p : ascii -> bool) (s : string) : bool :=
  match s with
  | EmptyString => true
  | String c s' => p c && string_forallb p s'
  end.

Fixpoint string_map (f : ascii -> ascii) (s : string) : string :=
  match s with
  | EmptyString => EmptyString
  | String c s' => String (f c) (string_map f s')
  end.

(** What [int] does to its argument before parsing: an all-ASCII string is
    taken as it is; otherwise each character from 127 on becomes a space when
    it is white space and ["?"] when not (no character from 127 to 255 is a
    decimal digit). *)
Definition to_ascii_digits_and_spaces (s : string) : string :=
  if string_forallb (fun c => code c <? 128) s then s
  else string_map (fun c => if code c <? 127 then c
                            else if isspace c then " "%char else "?"%char) s.

(** The digits of an integer literal: digits with single underscores between
    them.  Returns the value, the number of digits and the rest of the text;
    [None] on a doubled or trailing underscore. *)
Fixpoint int_digits (prev_underscore : bool) (acc : Z) (n : nat) (s : string)
  : option (Z * nat * string) :=
  match s with
  | EmptyString => if prev_underscore then None else Some (acc, n, s)
  | String c s' =>
      if is_digit c then int_digits false (10 * acc + digit_value c) (S n) s'
      else if Ascii.eqb c "_" then
        if prev_underscore then None else int_digits true acc n s'
      else if prev_underscore then None else Some (acc, n, s)
  end.

(** The default limit on the number of digits of a decimal literal
    (CPython 3.11 and later). *)
Definition int_max_str_digits : nat := 4300.

(** [int(s)] for a string [s], base 10. *)
Definition int (s : string) : result Z :=
  let invalid := Raise (ValueError (invalid_int_literal s)) in
  let t := skip_c_spaces (to_ascii_digits_and_spaces s) in
  let '(sign, t) :=
    match t with
    | String "+" t' => (1, t')
    | String "-" t' => (-1, t')
    | _ => (1, t)
    end in
  match t with
  | String "_" _ => invalid
  | _ =>
      match int_digits false 0 0 t with
      | None => invalid
      | Some (v, n, rest) =>
          match n, skip_c_spaces rest with
          | O, _ => invalid
          | _, EmptyString =>
              if (int_max_str_digits <? n)%nat
              then Raise (ValueError (int_digit_limit n))
              else Ok (sign * v)
          | _, _ => invalid
          end
      end
  end.

Definition digit_char (d : Z) : ascii := ascii_of_nat (Z.to_nat (48 + d)).

Fixpoint decimal (fuel : nat) (n : Z) : string :=
  match fuel with
  | O => EmptyString
  | S fuel' =>
      if n <? 10 then String (digit_char n) EmptyString
      else decimal fuel' (n / 10) +:+ String (digit_char (n mod 10)) EmptyString
  end.

(** [str(n)] for an integer [n]; the number of bits of [n] bounds the number
    of its decimal digits. *)
Definition str (n : Z) : string :=
  if n <? 0 then String "-" (decimal (S (Z.to_nat (Z.log2 (- n)))) (- n))
  else decimal (S (Z.to_nat (Z.log2 n))) n.

Fixpoint zeros (k : nat) : string :=
  match k with O => EmptyString | S k' => String "0" (zeros k') end.

(** [format(n, "0wd")]: the sign first, then zeros up to the width [w]. *)
Definition format_0d (w : nat) (n : Z) : string :=
  let s := str n in
  match s with
  | String "-" ds => String "-" (zeros (w - String.length s) +:+ ds)
  | _ => zeros (w - String.length s) +:+ s
  end.

(** [format(n, ",")] for a natural number: groups of three digits. *)
Fixpoint thousands (fuel : nat) (n : Z) : string :=
  match fuel with
  | O => str n
  | S fuel' =>
      if n <? 1000 then str n
      else thousands fuel' (n / 1000) +:+ "," +:+ format_0d 3 (n mod 1000)
  end.

Definition format_comma (n : Z) : string := thousands (Z.to_nat (Z.log2 n)) n.

(** ** Constants of [main.py] *)

Definition START_YEAR : Z := 1978.

Definition MONTH_MAP : gmap string Z :=
  list_to_map
    [("January", 1); ("February", 2); ("March", 3); ("April", 4);
     ("May", 5); ("June", 6); ("July", 7); ("August", 8);
     ("September", 9); ("October", 10); ("November", 11); ("December", 12)].

(** ** [parse_date] *)

(** [month] is the result of [MONTH_MAP.get], a number or [None]; in
    [if month:] both [None] and [0] are false. *)
Definition parse_date (month_str year_str : option string)
  : result (option string) :=
  m <- strip_value month_str ;;
  let month := MONTH_MAP !! m in
  y <- strip_value year_str ;;
  year <- int y ;;
  match month with
  | Some mo =>
      if mo =? 0 then Ok None
      else Ok (Some (str year +:+ "-" +:+ format_0d 2 mo))
  | None => Ok None
  end.


(** ** Rows of the reader *)

(** A row of [csv.DictReader]: a dict from column name to the field, which is
    [None] where the line has fewer fields than the header. *)
Abbreviation row := (gmap string (option string)).

(** [r.get(k, d)] *)
Definition get (r : row) (k : string) (d : option string) : option string :=
  match r !! k with
  | Some v => v
  | None => d
  end.

(** Truth value of a string or [None]. *)
Definition truthy_value (v : option string) : bool :=
  match v with
  | Some s => truthy s
  | None => false
  end.

Section Transform.

(** Python's [float] type and [float(s)] on a string. *)
Variable F : Type.
Variable float : string -> result F.

(** ** [parse_float] *)

Definition parse_float (value : option string) : result (option F) :=
  match value with
  | None => Ok None
  | Some value =>
      let value := strip value in
      if negb (truthy value) || String.eqb value "." then Ok None
      else
        match float value with
        | Ok x => Ok (Some x)
        | Raise e => if is_ValueError e then Ok None else Raise e
        end
  end.

(** ** Records and tables *)

Inductive value :=
  | VStr (s : string)
  | VFloat (x : F)
  | VNone.

Definition of_float (x : option F) : value :=
  match x with
  | Some x => VFloat x
  | None => VNone
  end.

Definition of_str (s : option string) : value :=
  match s with
  | Some s => VStr s
  | None => VNone
  end.

(** An output record: a dict literal, as the list of its items. *)
Definition record := list (string * value).

Fixpoint field (k : string) (r : record) : option value :=
  match r with
  | [] => None
  | (k', v) :: r' => if String.eqb k k' then Some v else field k r'
  end.

(** [pa.Table.from_pylist]: the table of a list of records. *)
Inductive table := Table_from_pylist (rows : list record).

Definition table_rows (t : table) : list record :=
  match t with Table_from_pylist rows => rows end.

(** [len(table)] *)
Definition num_rows (t : table) : nat := length (table_rows t).

(** ** The loop of a processor *)

(** The body of the loop on one row gives [None] where it ends in [continue]
    and the record where it ends in [processed.append]. *)
Definition consumer_sentiment_row (r : row) : result (option record) :=
  y <- strip_value (get r "YYYY" (Some "0")) ;;
  year <- int y ;;
  if year <? START_YEAR then Ok None else
  month <- parse_date (get r "Month" (Some "")) (get r "YYYY" (Some "")) ;;
  if negb (truthy_value month) then Ok None else
  value <- parse_float (get r "ICS_ALL" None) ;;
  match value with
  | None => Ok None
  | Some x =>
      Ok (Some [("month", of_str month); ("index", VFloat x)])
  end.

Definition sentiment_components_row (r : row) : result (option record) :=
  y <- strip_value (get r "YYYY" (Some "0")) ;;
  year <- int y ;;
  if year <? START_YEAR then Ok None else
  month <- parse_date (get r "Month" (Some "")) (get r "YYYY" (Some "")) ;;
  if negb (truthy_value month) then Ok None else
  icc <- parse_float (get r "ICC" None) ;;
  ice <- parse_float (get r "ICE" None) ;;
  match icc, ice with
  | None, None => Ok None
  | _, _ =>
      Ok (Some [("month", of_str month);
                ("index_current_conditions", of_float icc);
                ("index_expectations", of_float ice)])
  end.

Definition inflation_expectations_row (r : row) : result (option record) :=
  y <- strip_value (get r "YYYY" (Some "0")) ;;
  year <- int y ;;
  if year <? START_YEAR then Ok None else
  month <- parse_date (get r "Month" (Some "")) (get r "YYYY" (Some "")) ;;
  if negb (truthy_value month) then Ok None else
  px1 <- parse_float (get r "PX_MD" None) ;;
  px5 <- parse_float (get r "PX5_MD" None) ;;
  match px1, px5 with
  | None, None => Ok None
  | _, _ =>
      Ok (Some [("month", of_str month);
                ("inflation_1yr", of_float px1);
                ("inflation_5yr", of_float px5)])
  end.

(** [for row in reader: body], with the list [processed] the body appends
    to. *)
Fixpoint for_rows (body : row -> result (option record)) (rows : list row)
    (processed : list record) : result (list record) :=
  match rows with
  | [] => Ok processed
  | r :: rows' =>
      o <- body r ;;
      match o with
      | None => for_rows body rows' processed
      | Some rec => for_rows body rows' (processed ++ [rec])
      end
  end.

(** [csv.DictReader(StringIO(csv_text))]: the rows it yields, and the
    exception it stops with when it does not reach the end of the text. *)
Variable DictReader : string -> list row * option exn.

(** The whole loop of a processor on a text. *)
Definition scan (body : row -> result (option record)) (csv_text : string)
  : result (list record) :=
  let '(rows, stop) := DictReader csv_text in
  processed <- for_rows body rows [] ;;
  match stop with
  | Some e => Raise e
  | None => Ok processed
  end.

(** ** Schemas and dataset configurations *)

Record schema := {
  columns : list (string * string);
  not_null : list string;
  min_rows : nat
}.

Record config := {
  id : string;
  title : string;
  description : string;
  column_descriptions : list (string * string)
}.

Definition CONSUMER_SENTIMENT : config := {|
  id := "umich_consumer_sentiment";
  title := "University of Michigan Consumer Sentiment Index (Monthly)";
  description := "Monthly Index of Consumer Sentiment (ICS) from the University of Michigan Survey of Consumers. Measures consumer confidence about personal finances and business conditions.";
  column_descriptions :=
    [("month", "Month of survey (YYYY-MM)");
     ("index", "Index of Consumer Sentiment (1966=100)")]
|}.

Definition SENTIMENT_COMPONENTS : config := {|
  id := "umich_sentiment_components";
  title := "University of Michigan Sentiment Components (Monthly)";
  description := "Component indices from the University of Michigan Survey of Consumers. ICC measures current conditions, ICE measures consumer expectations.";
  column_descriptions :=
    [("month", "Month of survey (YYYY-MM)");
     ("index_current_conditions", "Index of Current Economic Conditions");
     ("index_expectations", "Index of Consumer Expectations")]
|}.

Definition INFLATION_EXPECTATIONS : config := {|
  id := "umich_inflation_expectations";
  title := "University of Michigan Inflation Expectations (Monthly)";
  description := "Consumer inflation expectations from the University of Michigan Survey of Consumers. Median expected price changes over 1-year and 5-year horizons.";
  column_descriptions :=
    [("month", "Month of survey (YYYY-MM)");
     ("inflation_1yr", "Expected inflation over next 12 months (percent)");
     ("inflation_5yr", "Expected inflation over next 5 years (percent)")]
|}.

(** The schemas of [test.py]. *)
Definition consumer_sentiment_schema : schema := {|
  columns := [("month", "string"); ("index", "double")];
  not_null := ["month"; "index"];
  min_rows := 100
|}.

Definition sentiment_components_schema : schema := {|
  columns := [("month", "string");
              ("index_current_conditions", "double");
              ("index_expectations", "double")];
  not_null := ["month"];
  min_rows := 100
|}.

Definition inflation_expectations_schema : schema := {|
  columns := [("month", "string");
              ("inflation_1yr", "double");
              ("inflation_5yr", "double")];
  not_null := ["month"];
  min_rows := 100
|}.

(** ** Effects: the calls a run makes *)

(** What a processor does beyond computing: it prints, and it calls the
    validator and the upload and publish collaborators.  A run is a function
    of the log of the calls made so far. *)
Inductive event :=
  | Printed (line : string)
  | Validated (t : table) (s : schema)
  | MonthAsserted (t : table) (column : string)
  | Uploaded (t : table) (dataset : string)
  | Published (dataset : string) (c : config).

Definition M (A : Type) : Type := list event -> result A * list event.

Definition ret {A} (a : A) : M A := fun log => (Ok a, log).

Definition bind {A B} (m : M A) (k : A -> M B) : M B :=
  fun log =>
    match m log with
    | (Ok a, log') => k a log'
    | (Raise e, log') => (Raise e, log')
    end.

Definition raise {A} (e : exn) : M A := fun log => (Raise e, log).

Definition lift {A} (r : result A) : M A := fun log => (r, log).

(** A call: it is logged, then it returns or raises. *)
Definition call {A} (ev : event) (r : result A) : M A :=
  fun log => (r, log ++ [ev]).

Notation "e1 ;;; e2" := (bind e1 (fun _ => e2))
  (at level 100, right associativity).
Notation "x <<- e1 ;;; e2" := (bind e1 (fun x => e2))
  (at level 100, e1 at next level, right associativity).

(** The outcomes of the collaborators' calls. *)
Variable validate : table -> schema -> result unit.
Variable assert_valid_month : table -> string -> result unit.
Variable upload_data : table -> string -> result unit.
Variable publish : string -> config -> result unit.

Definition print (line : string) : M unit := call (Printed line) (Ok tt).

(** [len(x)] formatted with [:,] *)
Definition len_comma (n : nat) : string := format_comma (Z.of_nat n).

(** ** [test.py] *)

Definition test_consumer_sentiment (t : table) : M unit :=
  call (Validated t consumer_sentiment_schema)
       (validate t consumer_sentiment_schema) ;;;
  call (MonthAsserted t "month") (assert_valid_month t "month") ;;;
  print ("  Validated " +:+ len_comma (num_rows t)
         +:+ " consumer sentiment records").

Definition test_sentiment_components (t : table) : M unit :=
  call (Validated t sentiment_components_schema)
       (validate t sentiment_components_schema) ;;;
  call (MonthAsserted t "month") (assert_valid_month t "month") ;;;
  print ("  Validated " +:+ len_comma (num_rows t)
         +:+ " sentiment component records").

Definition test_inflation_expectations (t : table) : M unit :=
  call (Validated t inflation_expectations_schema)
       (validate t inflation_expectations_schema) ;;;
  call (MonthAsserted t "month") (assert_valid_month t "month") ;;;
  print ("  Validated " +:+ len_comma (num_rows t)
         +:+ " inflation expectation records").

(** ** The three processors *)

(** [if not processed:] on a list. *)
Definition is_empty {A} (l : list A) : bool :=
  match l with [] => true | _ => false end.

Definition process_consumer_sentiment (csv_text : string) : M unit :=
  processed <<- lift (scan consumer_sentiment_row csv_text) ;;;
  if is_empty processed
  then raise (ValueError (text "No consumer sentiment data found"))
  else
    print ("  Transformed " +:+ len_comma (length processed)
           +:+ " consumer sentiment observations") ;;;
    let t := Table_from_pylist processed in
    test_consumer_sentiment t ;;;
    call (Uploaded t (id CONSUMER_SENTIMENT))
         (upload_data t (id CONSUMER_SENTIMENT)) ;;;
    call (Published (id CONSUMER_SENTIMENT) CONSUMER_SENTIMENT)
         (publish (id CONSUMER_SENTIMENT) CONSUMER_SENTIMENT).

Definition process_sentiment_components (csv_text : string) : M unit :=
  processed <<- lift (scan sentiment_components_row csv_text) ;;;
  if is_empty processed
  then raise (ValueError (text "No sentiment components data found"))
  else
    print ("  Transformed " +:+ len_comma (length processed)
           +:+ " sentiment component observations") ;;;
    let t := Table_from_pylist processed in
    test_sentiment_components t ;;;
    call (Uploaded t (id SENTIMENT_COMPONENTS))
         (upload_data t (id SENTIMENT_COMPONENTS)) ;;;
    call (Published (id SENTIMENT_COMPONENTS) SENTIMENT_COMPONENTS)
         (publish (id SENTIMENT_COMPONENTS) SENTIMENT_COMPONENTS).

Definition process_inflation_expectations (csv_text : string) : M unit :=
  processed <<- lift (scan inflation_expectations_row csv_text) ;;;
  if is_empty processed
  then raise (ValueError (text "No inflation expectations data found"))
  else
    print ("  Transformed " +:+ len_comma (length processed)
           +:+ " inflation expectation observations") ;;;
    let t := Table_from_pylist processed in
    test_inflation_expectations t ;;;
    call (Uploaded t (id INFLATION_EXPECTATIONS))
         (upload_data t (id INFLATION_EXPECTATIONS)) ;;;
    call (Published (id INFLATION_EXPECTATIONS) INFLATION_EXPECTATIONS)
         (publish (id INFLATION_EXPECTATIONS) INFLATION_EXPECTATIONS).

End Transform.

Arguments VStr {F} s.
Arguments VNone {F}.
Arguments VFloat {F} x.
Arguments Table_from_pylist {F} rows.
Arguments table_rows {F} t.
Arguments num_rows {F} t.
Arguments field {F} k r.
Arguments Printed {F} line.
Arguments Validated {F} t s.
Arguments MonthAsserted {F} t column.
Arguments Uploaded {F} t dataset.
Arguments Published {F} dataset c.
Arguments for_rows {F} body rows processed.

(** ** The three datasets *)

(** The processors are three procedures of the same shape; the statements
    about all of them are indexed by the dataset. *)
Inductive dataset :=
  | ConsumerSentiment
  | SentimentComponents
  | InflationExpectations.

Section Datasets.

Variable F : Type.
Variable float : string -> result F.

Definition row_body (d : dataset) : row -> result (option (record F)) :=
  match d with
  | ConsumerSentiment => consumer_sentiment_row F float
  | SentimentComponents => sentiment_components_row F float
  | InflationExpectations => inflation_expectations_row F float
  end.

Definition schema_of (d : dataset) : schema :=
  match d with
  | ConsumerSentiment => consumer_sentiment_schema
  | SentimentComponents => sentiment_components_schema
  | InflationExpectations => inflation_expectations_schema
  end.

Definition config_of (d : dataset) : config :=
  match d with
  | ConsumerSentiment => CONSUMER_SENTIMENT
  | SentimentComponents => SENTIMENT_COMPONENTS
  | InflationExpectations => INFLATION_EXPECTATIONS
  end.

Definition no_data_message (d : dataset) : string :=
  match d with
  | ConsumerSentiment => "No consumer sentiment data found"
  | SentimentComponents => "No sentiment components data found"
  | InflationExpectations => "No inflation expectations data found"
  end.

Definition transformed_line (d : dataset) (n : nat) : string :=
  match d with
  | ConsumerSentiment =>
      "  Transformed " +:+ len_comma n +:+ " consumer sentiment observations"
  | SentimentComponents =>
      "  Transformed " +:+ len_comma n +:+ " sentiment component observations"
  | InflationExpectations =>
      "  Transformed " +:+ len_comma n +:+ " inflation expectation observations"
  end.

Definition validated_line (d : dataset) (n : nat) : string :=
  match d with
  | ConsumerSentiment =>
      "  Validated " +:+ len_comma n +:+ " consumer sentiment records"
  | SentimentComponents =>
      "  Validated " +:+ len_comma n +:+ " sentiment component records"
  | InflationExpectations =>
      "  Validated " +:+ len_comma n +:+ " inflation expectation records"
  end.

Variable DictReader : string -> list row * option exn.
Variable validate : table F -> schema -> result unit.
Variable assert_valid_month : table F -> string -> result unit.
Variable upload_data : table F -> string -> result unit.
Variable publish : string -> config -> result unit.

Definition processor (d : dataset) : string -> M F unit :=
  match d with
  | ConsumerSentiment =>
      process_consumer_sentiment F float DictReader
        validate assert_valid_month upload_data publish
  | SentimentComponents =>
      process_sentiment_components F float DictReader
        validate assert_valid_month upload_data publish
  | InflationExpectations =>
      process_inflation_expectations F float DictReader
        validate assert_valid_month upload_data publish
  end.

(** What the collaborators answer, in the order a processor calls them on a
    table. *)
Definition collaborators (d : dataset) (t : table F) : result unit :=
  _ <- validate t (schema_of d) ;;
  _ <- assert_valid_month t "month" ;;
  _ <- upload_data t (id (config_of d)) ;;
  publish (id (config_of d)) (config_of d).

(** The calls of a processor on a table that are made until one raises. *)
Definition calls (d : dataset) (t : table F) : list (event F) :=
  Printed (transformed_line d (num_rows t)) ::
  Validated t (schema_of d) ::
  match validate t (schema_of d) with
  | Raise _ => []
  | Ok _ =>
      MonthAsserted t "month" ::
      match assert_valid_month t "month" with
      | Raise _ => []
      | Ok _ =>
          Printed (validated_line d (num_rows t)) ::
          Uploaded t (id (config_of d)) ::
          match upload_data t (id (config_of d)) with
          | Raise _ => []
          | Ok _ => [Published (id (config_of d)) (config_of d)]
          end
      end
  end.

End Datasets.

(** ** The validator *)

(** Modelled from the spec: the canonical month pattern of [assert_valid_month]
    (of the package [subsets_utils], which is not part of the sources): four
    digits, a hyphen, and a two-digit month from 01 to 12. *)
Definition valid_month (s : string) : bool :=
  match s with
  | String y1 (String y2 (String y3 (String y4
      (String "-" (String m1 (String m2 EmptyString)))))) =>
      is_digit y1 && is_digit y2 && is_digit y3 && is_digit y4
      && ((Ascii.eqb m1 "0" && (49 <=? code m2) && (code m2 <=? 57))
          || (Ascii.eqb m1 "1" && (48 <=? code m2) && (code m2 <=? 50)))
  | _ => false
  end.

Section Validator.

Variable F : Type.

(** Modelled from the spec: the semantic type of a value, string or double;
    a null has every type. *)
Definition has_type (ty : string) (v : value F) : bool :=
  match v with
  | VNone => true
  | VStr _ => String.eqb ty "string"
  | VFloat _ => String.eqb ty "double"
  end.

(** Modelled from the spec: a declared column exists with its declared
    type. *)
Definition column_ok (t : table F) (c : string * string) : bool :=
  forallb (fun r => match field c.1 r with
                    | Some v => has_type c.2 v
                    | None => false
                    end) (table_rows t).

(** Modelled from the spec: a declared not-null column holds no null. *)
Definition no_nulls (t : table F) (c : string) : bool :=
  forallb (fun r => match field c r with
                    | Some VNone | None => false
                    | Some _ => true
                    end) (table_rows t).

(** Modelled from the spec: the row count is at least the declared
    minimum. *)
Definition enough_rows (t : table F) (s : schema) : bool :=
  (min_rows s <=? num_rows t)%nat.

Definition validation_error (rule : string) : exn :=
  OtherError "ValidationError" (text rule).

(** Modelled from the spec: [validate(table, schema)] of [subsets_utils],
    which is not part of the sources.  It fails when a rule is violated; the
    rules are taken in the order in which the spec gives them. *)
Definition validate (t : table F) (s : schema) : result unit :=
  if negb (forallb (column_ok t) (columns s))
  then Raise (validation_error "column missing or of the wrong type")
  else if negb (forallb (no_nulls t) (not_null s))
  then Raise (validation_error "null in a not-null column")
  else if negb (enough_rows t s)
  then Raise (validation_error "insufficient rows")
  else Ok tt.

(** Modelled from the spec: [assert_valid_month(table, column)] of
    [subsets_utils.testing], which is not part of the sources: every value of
    the column matches the month pattern. *)
Definition assert_valid_month (t : table F) (column : string) : result unit :=
  if forallb (fun r => match field column r with
                       | Some (VStr s) => valid_month s
                       | _ => false
                       end) (table_rows t)
  then Ok tt
  else Raise (OtherError "AssertionError" (text "month not of the form YYYY-MM")).

End Validator.

Arguments validate {F} t s.
Arguments assert_valid_month {F} t column.
Arguments column_ok {F} t c.
Arguments no_nulls {F} t c.
Arguments enough_rows {F} t s.

(** ** Stand-ins for the collaborators, for examples *)

Module Fixture.

(** A float written as a plain decimal: the digits and the number of digits
    after the point. *)
Definition F : Type := Z * nat.

Fixpoint fraction (acc : Z) (k : nat) (s : string) : option F :=
  match s with
  | EmptyString => Some (acc, k)
  | String c s' =>
      if is_digit c then fraction (10 * acc + digit_value c) (S k) s' else None
  end.

Fixpoint whole (acc : Z) (s : string) : option F :=
  match s with
  | EmptyString => Some (acc, O)
  | String c s' =>
      if Ascii.eqb c "." then fraction acc 0 s'
      else if is_digit c then whole (10 * acc + digit_value c) s'
      else None
  end.

Definition float (s : string) : result F :=
  match s, whole 0 s with
  | String _ _, Some x => Ok x
  | _, _ => Raise (ValueError (text "could not convert string to float"))
  end.

Fixpoint split_on (sep : ascii) (s : string) : list string :=
  match s with
  | EmptyString => [EmptyString]
  | String c s' =>
      if Ascii.eqb c sep then EmptyString :: split_on sep s'
      else match split_on sep s' with
           | h :: t => String c h :: t
           | [] => [String c EmptyString]
           end
  end.

Fixpoint zip_row (header fields : list string) (r : row) : row :=
  match header, fields with
  | [], _ => r
  | h :: hs, [] => zip_row hs [] (<[h := None]> r)
  | h :: hs, f :: fs => zip_row hs fs (<[h := Some f]> r)
  end.

(** A reader for texts without quotes: lines end in LF, fields are separated
    by commas, the first line is the header, empty lines are skipped. *)
Definition DictReader (csv_text : string) : list row * option exn :=
  match filter (fun l => l <> EmptyString) (split_on "010" csv_text) with
  | [] => ([], None)
  | header :: lines =>
      (map (fun l => zip_row (split_on "," header) (split_on "," l) ∅) lines,
       None)
  end.

Definition upload_data (t : table F) (dataset : string) : result unit := Ok tt.
Definition publish (dataset : string) (c : config) : result unit := Ok tt.

Definition process (d : dataset) : string -> M F unit :=
  processor F float DictReader validate assert_valid_month upload_data publish d.

Definition row3 (year month : string) (k v : string) : row :=
  {[ "YYYY" := Some year; "Month" := Some month; k := Some v ]}.

Definition row4 (year month : string) (k1 v1 k2 v2 : string) : row :=
  {[ "YYYY" := Some year; "Month" := Some month;
     k1 := Some v1; k2 := Some v2 ]}.

Definition LF : string := String "010" EmptyString.

(** The three rows of the end-to-end example. *)
Definition three_rows : string :=
  "YYYY,Month,ICS_ALL" +:+ LF +:+
  "2020,January,95.5" +:+ LF +:+
  "1975,June,80" +:+ LF +:+
  "2020,February,." +:+ LF.

(** A text whose second row has a year that is not a number. *)
Definition bad_year : string :=
  "YYYY,Month,ICS_ALL" +:+ LF +:+
  "2020,January,95.5" +:+ LF +:+
  "abc,February,96.0" +:+ LF +:+
  "2020,March,97" +:+ LF.

(** A text with rows before 1978 only. *)
Definition old_rows : string :=
  "YYYY,Month,ICS_ALL" +:+ LF +:+
  "1975,June,80" +:+ LF +:+
  "1977,December,83.1" +:+ LF.

(** The same month twice. *)
Definition twice : string :=
  "YYYY,Month,ICS_ALL" +:+ LF +:+
  "2020,January,95.5" +:+ LF +:+
  "2020,January,95.5" +:+ LF.

(** [n] rows of January 2020, and their records. *)
Definition rows_2020 (n : nat) : list row :=
  repeat (row3 "2020" "January" "ICS_ALL" "95.5") n.

Definition records_2020 (n : nat) : list (record F) :=
  repeat [("month", VStr "2020-01"); ("index", VFloat (955, 1%nat))] n.

End Fixture.

(** ** Notions for the statements *)

(** The table of months, as a list. *)
Definition months : list (string * Z) :=
  [("January", 1); ("February", 2); ("March", 3); ("April", 4);
   ("May", 5); ("June", 6); ("July", 7); ("August", 8);
   ("September", 9); ("October", 10); ("November", 11); ("December", 12)].

(** The beginning that the three bodies share: the month of a row that
    passes the year and the month tests, [None] for a row that is skipped. *)
Definition row_month (r : row) : result (option string) :=
  y <- strip_value (get r "YYYY" (Some "0")) ;;
  year <- int y ;;
  if year <? START_YEAR then Ok None else
  month <- parse_date (get r "Month" (Some "")) (get r "YYYY" (Some "")) ;;
  if negb (truthy_value month) then Ok None else Ok month.

Section Notions.

Variable F : Type.
Variable body : row -> result (option (record F)).

(** The record a row contributes, if any. *)
Definition emitted (r : row) : option (record F) :=
  match body r with
  | Ok (Some rec) => Some rec
  | _ => None
  end.

Definition returns (r : row) : Prop := exists o, body r = Ok o.

End Notions.

Arguments emitted {F} body r.
Arguments returns {F} body r.

Section Conformance.

Variable F : Type.

(** A record has the columns of a schema, with their types and without a
    null where the schema allows none. *)
Definition record_conforms (s : schema) (rec : record F) : bool :=
  forallb (fun c => match field c.1 rec with
                    | Some v => has_type F c.2 v
                    | None => false
                    end) (columns s)
  && forallb (fun c => match field c rec with
                       | Some VNone | None => false
                       | Some _ => true
                       end) (not_null s).

End Conformance.

Arguments record_conforms {F} s rec.

(** ** The rest of the pipeline *)

(** A row with every field trimmed. *)
Definition strip_fields (r : row) : row :=
  fmap (M := option) strip <$> r.

(** The exception of [None.strip()]. *)
Definition none_has_no_strip : exn :=
  AttributeError (text "'NoneType' object has no attribute 'strip'").

(** The calls of a run of a processor that goes to its end. *)
Definition all_calls {F : Type} (d : dataset) (t : table F)
  : list (event F) :=
  [Printed (transformed_line d (num_rows t));
   Validated t (schema_of d);
   MonthAsserted t "month";
   Printed (validated_line d (num_rows t));
   Uploaded t (id (config_of d));
   Published (id (config_of d)) (config_of d)].

(** *** [transforms/sentiment/main.py]: [run] *)

(** [raw_data[key]] on the dict that [load_raw_json] gives.  The values are
    taken to be strings, which is what the ingest saves. *)
Definition getitem (raw_data : gmap string string) (key : string)
  : result string :=
  match raw_data !! key with
  | Some v => Ok v
  | None => Raise (OtherError "KeyError" (text key))
  end.

Module TransformSentiment.
Section Run.

Variable F : Type.
Variable float : string -> result F.
Variable DictReader : string -> list row * option exn.
Variable validate : table F -> schema -> result unit.
Variable assert_valid_month : table F -> string -> result unit.
Variable upload_data : table F -> string -> result unit.
Variable publish : string -> config -> result unit.

(** [load_raw_json(name)] of [subsets_utils]: the dict it reads, or the
    exception it raises. *)
Variable load_raw_json : string -> result (gmap string string).

Local Notation "e1 ;;; e2" := (bind F e1 (fun _ => e2))
  (at level 100, right associativity).
Local Notation "x <<- e1 ;;; e2" := (bind F e1 (fun x => e2))
  (at level 100, e1 at next level, right associativity).

Definition run : M F unit :=
  raw_data <<- lift F (load_raw_json "sentiment_data") ;;;
  consumer_sentiment <<- lift F (getitem raw_data "consumer_sentiment") ;;;
  process_consumer_sentiment F float DictReader validate assert_valid_month
    upload_data publish consumer_sentiment ;;;
  sentiment_components <<- lift F (getitem raw_data "sentiment_components") ;;;
  process_sentiment_components F float DictReader validate assert_valid_month
    upload_data publish sentiment_components ;;;
  inflation_expectations <<-
    lift F (getitem raw_data "inflation_expectations") ;;;
  process_inflation_expectations F float DictReader validate
    assert_valid_month upload_data publish inflation_expectations.

End Run.
End TransformSentiment.

(** *** [ingest/sentiment.py] *)

Module IngestSentiment.

Definition BASE_URL : string := "https://www.sca.isr.umich.edu/files".

Definition FILES : list (string * string) :=
  [("tbmics.csv", "consumer_sentiment");
   ("tbmiccice.csv", "sentiment_components");
   ("tbmpx1px5.csv", "inflation_expectations")].

(** What the code uses of a response: what [raise_for_status()] does, and
    the attribute [text]. *)
Record response := {
  raise_for_status : result unit;
  response_text : string
}.

(** The calls of the ingest. *)
Inductive call :=
  | Fetching (line : string)
  | HttpGet (url : string)
  | SaveRawJson (data : gmap string string) (name : string).

(** The two calls of one turn of the loop. *)
Definition fetch_calls (filename : string) : list call :=
  [Fetching ("  Fetching " +:+ filename +:+ "...");
   HttpGet (BASE_URL +:+ "/" +:+ filename)].

Section Run.

(** [get(url)] of [subsets_utils]. *)
Variable http_get : string -> result response.
(** [save_raw_json(data, name)] of [subsets_utils]. *)
Variable save_raw_json : gmap string string -> string -> result unit.

(** [for filename, key in FILES: ...], with the dict [all_data] and the log
    of the calls. *)
Fixpoint fetch_all (files : list (string * string))
    (all_data : gmap string string) (log : list call)
  : result (gmap string string) * list call :=
  match files with
  | [] => (Ok all_data, log)
  | (filename, key) :: files' =>
      let log := log ++ [Fetching ("  Fetching " +:+ filename +:+ "...")] in
      let url := BASE_URL +:+ "/" +:+ filename in
      let log := log ++ [HttpGet url] in
      match http_get url with
      | Raise e => (Raise e, log)
      | Ok response =>
          match raise_for_status response with
          | Raise e => (Raise e, log)
          | Ok _ =>
              fetch_all files' (<[key := response_text response]> all_data) log
          end
      end
  end.

Definition run (log : list call) : result unit * list call :=
  match fetch_all FILES ∅ log with
  | (Raise e, log) => (Raise e, log)
  | (Ok all_data, log) =>
      (save_raw_json all_data "sentiment_data",
       log ++ [SaveRawJson all_data "sentiment_data"])
  end.

(** One download: the text of the response, or the exception of [get] or of
    [raise_for_status]. *)
Definition download (filename : string) : result string :=
  response <- http_get (BASE_URL +:+ "/" +:+ filename) ;;
  _ <- raise_for_status response ;;
  Ok (response_text response).

End Run.
End IngestSentiment.

(** *** [main.py] *)

(** The namespace that [parser.parse_args()] gives. *)
Record args := {
  ingest_only : bool;
  transform_only : bool
}.

Inductive main_call :=
  | ValidateEnvironment
  | MainPrinted (line : string)
  | IngestRun
  | TransformRun.

Section Main.

(** What [validate_environment()], [ingest_sentiment.run()] and
    [transform_sentiment.run()] do when they are called: return or raise. *)
Variable validate_environment : result unit.
Variable ingest_run : result unit.
Variable transform_run : result unit.

Definition LF : string := String "010" EmptyString.

(** [main()], after the arguments are parsed: the result and the calls
    made. *)
Definition main (a : args) : result unit * list main_call :=
  let log := [ValidateEnvironment] in
  match validate_environment with
  | Raise e => (Raise e, log)
  | Ok _ =>
      let should_ingest := negb (transform_only a) in
      let should_transform := negb (ingest_only a) in
      let '(r, log) :=
        if should_ingest
        then (ingest_run,
              log ++ [MainPrinted (LF +:+ "=== Phase 1: Ingest ==="); IngestRun])
        else (Ok tt, log) in
      match r with
      | Raise e => (Raise e, log)
      | Ok _ =>
          if should_transform
          then (transform_run,
                log ++ [MainPrinted (LF +:+ "=== Phase 2: Transform ===");
                        TransformRun])
          else (Ok tt, log)
      end
  end.

End Main.

(** *** Stand-ins for the examples of the rest of the pipeline *)

Module Stub.

Definition ok_response (s : string) : IngestSentiment.response :=
  {| IngestSentiment.raise_for_status := Ok tt;
     IngestSentiment.response_text := s |}.

(** A server that has the three files. *)
Definition http_get (url : string) : result IngestSentiment.response :=
  if String.eqb url "https://www.sca.isr.umich.edu/files/tbmics.csv"
  then Ok (ok_response Fixture.three_rows)
  else if String.eqb url "https://www.sca.isr.umich.edu/files/tbmiccice.csv"
  then Ok (ok_response "YYYY,Month,ICC,ICE")
  else if String.eqb url "https://www.sca.isr.umich.edu/files/tbmpx1px5.csv"
  then Ok (ok_response "YYYY,Month,PX_MD,PX5_MD")
  else Raise (OtherError "ConnectionError" (text url)).

(** A server on which the second file is missing. *)
Definition http_get_404 (url : string) : result IngestSentiment.response :=
  if String.eqb url "https://www.sca.isr.umich.edu/files/tbmiccice.csv"
  then Ok {| IngestSentiment.raise_for_status :=
               Raise (OtherError "HTTPError" (text "404"));
             IngestSentiment.response_text := "" |}
  else http_get url.

Definition save_raw_json (data : gmap string string) (name : string)
  : result unit := Ok tt.

(** Raw data with the first dataset only. *)
Definition load_first_only (name : string) : result (gmap string string) :=
  Ok {[ "consumer_sentiment" := Fixture.three_rows ]}.

(** A validator that asks for nothing, so that a small table passes. *)
Definition validate_any (t : table Fixture.F) (s : schema) : result unit :=
  Ok tt.

(** Raw data with the three datasets, the last two without a row. *)
Definition load_all (name : string) : result (gmap string string) :=
  Ok {[ "consumer_sentiment" := Fixture.three_rows;
        "sentiment_components" := "YYYY,Month,ICC,ICE";
        "inflation_expectations" := "YYYY,Month,PX_MD,PX5_MD" ]}.

(** A text without a year column. *)
Definition no_year_column : string :=
  "Month,ICS_ALL" +:+ Fixture.LF +:+ "January,95.5" +:+ Fixture.LF.

(** A line that stops before the year. *)
Definition short_line : row := {[ "Month" := Some "January"; "YYYY" := None ]}.

(** The processors with a validator that lets a small table pass. *)
Definition process (d : dataset) : string -> M Fixture.F unit :=
  processor Fixture.F Fixture.float Fixture.DictReader validate_any
    assert_valid_month Fixture.upload_data Fixture.publish d.

Definition record_2020_01 : record Fixture.F :=
  [("month", VStr "2020-01"); ("index", VFloat (955, 1%nat))].

(** A text of [n] rows of January 2020. *)
Fixpoint lines_2020 (n : nat) : string :=
  match n with
  | O => EmptyString
  | S n' => "2020,January,95.5" +:+ Fixture.LF +:+ lines_2020 n'
  end.

Definition text_2020 (n : nat) : string :=
  "YYYY,Month,ICS_ALL" +:+ Fixture.LF +:+ lines_2020 n.

(** A components text with one row, whose [ICC] is empty. *)
Definition components_row : string :=
  "YYYY,Month,ICC,ICE" +:+ Fixture.LF +:+ "2020,March,,88.1" +:+ Fixture.LF.

End Stub.

(** ** Notions for the statements on the processors *)

Section Contribution.

Variable F : Type.
Variable float : string -> result F.
Variable DictReader : string -> list row * option exn.
Variable validate : table F -> schema -> result unit.
Variable assert_valid_month : table F -> string -> result unit.
Variable upload_data : table F -> string -> result unit.
Variable publish : string -> config -> result unit.

(** The test of a dataset, of [test.py]. *)
Definition test_of (d : dataset) : table F -> M F unit :=
  match d with
  | ConsumerSentiment =>
      test_consumer_sentiment F validate assert_valid_month
  | SentimentComponents =>
      test_sentiment_components F validate assert_valid_month
  | InflationExpectations =>
      test_inflation_expectations F validate assert_valid_month
  end.

(** What it is for the row [r] to give [o], a record or nothing, in the
    output of the processor of [d].  The body returns [o] on [r].  In the
    loop, the records of the rows before [r] come first, then [o] when it is
    a record, and the loop goes on from there with the rows after [r].  When
    the reader yields [r] and the scan returns, the output is the records of
    the rows before, then [o] when it is a record, then the records of the
    rows after; and when [o] is a record the processor builds the table of
    that output and hands it to its collaborators. *)
Definition row_contributes
    (d : dataset) (r : row) (o : option (record F)) : Prop :=
  row_body F float d r = Ok o
  /\ (forall pre post processed,
        for_rows (row_body F float d) (pre ++ r :: post) processed
        = (out <- for_rows (row_body F float d) pre processed ;;
           for_rows (row_body F float d) post (out ++ option_list o)))
  /\ (forall csv_text pre post stop out log,
        DictReader csv_text = (pre ++ r :: post, stop) ->
        scan F DictReader (row_body F float d) csv_text = Ok out ->
        out = omap (emitted (row_body F float d)) pre ++ option_list o
              ++ omap (emitted (row_body F float d)) post
        /\ (o <> None ->
            processor F float DictReader validate assert_valid_month
              upload_data publish d csv_text log
            = (collaborators F validate assert_valid_month upload_data
                 publish d (Table_from_pylist out),
               log ++ calls F validate assert_valid_month upload_data d
                        (Table_from_pylist out)))).

End Contribution.

(** The table that a call hands over, if any. *)
Definition event_table {F : Type} (ev : event F) : option (table F) :=
  match ev with
  | Validated t _ | MonthAsserted t _ | Uploaded t _ => Some t
  | Printed _ | Published _ _ => None
  end.

(** * Properties *)

(** ** Decimal digits *)

Lemma append_length (a b : string) :
  String.length (a +:+ b) = (String.length a + String.length b)%nat.
Proof. induction a as [|c a IH]; simpl; [reflexivity | now rewrite IH]. Qed.

Lemma log2_fuel (k : nat) (n : Z) :
  10 ^ Z.of_nat k <= n -> (k <= Z.to_nat (Z.log2 n))%nat.
Proof.
  intros H.
  assert (Hp : 2 ^ Z.of_nat k <= 10 ^ Z.of_nat k)
    by (apply Z.pow_le_mono_l; lia).
  assert (Hl : Z.of_nat k <= Z.log2 n).
  { apply Z.log2_le_pow2; [|lia].
    assert (0 < 2 ^ Z.of_nat k) by (apply Z.pow_pos_nonneg; lia). lia. }
  lia.
Qed.

(** With [k] units of fuel to spare, a number of at least [10^k] has more
    than [k] digits. *)
Lemma decimal_length (k : nat) : forall (fuel : nat) (n : Z),
  (k < fuel)%nat -> 10 ^ Z.of_nat k <= n ->
  (k < String.length (decimal fuel n))%nat.
Proof.
  induction k as [|k IH]; intros fuel n Hf Hn.
  - destruct fuel as [|fuel]; [lia|]. simpl.
    destruct (n <? 10); simpl; [lia|]. rewrite append_length. simpl. lia.
  - destruct fuel as [|fuel]; [lia|]. simpl.
    assert (H10 : 10 ^ Z.of_nat (S k) = 10 * 10 ^ Z.of_nat k).
    { rewrite Nat2Z.inj_succ, Z.pow_succ_r by lia. reflexivity. }
    assert (Hpos : 0 < 10 ^ Z.of_nat k) by (apply Z.pow_pos_nonneg; lia).
    destruct (Z.ltb_spec n 10) as [Hlt|Hge]; [lia|].
    rewrite append_length. simpl.
    assert (Hd : 10 ^ Z.of_nat k <= n / 10).
    { apply Z.div_le_lower_bound; lia. }
    specialize (IH fuel (n / 10)). lia.
Qed.

Lemma digit_char_cases (d : Z) :
  0 <= d < 10 ->
  is_digit (digit_char d) = true /\ digit_char d <> "-"%char.
Proof.
  intros H.
  assert (Hd : d = 0 \/ d = 1 \/ d = 2 \/ d = 3 \/ d = 4 \/ d = 5 \/ d = 6
               \/ d = 7 \/ d = 8 \/ d = 9) by lia.
  repeat (destruct Hd as [-> | Hd];
          [split; [reflexivity | intros E; vm_compute in E; discriminate E]|]).
  subst d. split; [reflexivity | intros E; vm_compute in E; discriminate E].
Qed.

(** The digits of a natural number do not start with a minus sign. *)
Lemma decimal_head (fuel : nat) : forall n : Z, 0 <= n ->
  match decimal (S fuel) n with
  | String c _ => c <> "-"%char
  | EmptyString => False
  end.
Proof.
  induction fuel as [|fuel IH]; intros n Hn.
  - simpl. destruct (Z.ltb_spec n 10).
    + apply digit_char_cases; lia.
    + simpl. apply digit_char_cases. apply Z.mod_pos_bound. lia.
  - change (decimal (S (S fuel)) n)
      with (if n <? 10 then String (digit_char n) EmptyString
            else decimal (S fuel) (n / 10)
                 +:+ String (digit_char (n mod 10)) EmptyString).
    destruct (Z.ltb_spec n 10).
    + apply digit_char_cases; lia.
    + specialize (IH (n / 10)).
      destruct (decimal (S fuel) (n / 10)) as [|c s].
      * exfalso. apply IH. apply Z.div_pos; lia.
      * simpl. apply IH. apply Z.div_pos; lia.
Qed.

(** From 1000 on, padding to four digits changes nothing. *)
Lemma format_04d_str (y : Z) : 1000 <= y -> format_0d 4 y = str y.
Proof.
  intros Hy. unfold format_0d.
  assert (Hs : str y = decimal (S (Z.to_nat (Z.log2 y))) y).
  { unfold str. destruct (Z.ltb_spec y 0); [lia | reflexivity]. }
  assert (Hl : (3 < String.length (str y))%nat).
  { rewrite Hs. apply decimal_length.
    - pose proof (log2_fuel 3 y). simpl in *. lia.
    - simpl. lia. }
  pose proof (decimal_head (Z.to_nat (Z.log2 y)) y) as Hh.
  rewrite <- Hs in Hh.
  replace (4 - String.length (str y))%nat with 0%nat by lia.
  destruct (str y) as [|c s]; [reflexivity|].
  simpl.
  destruct (Ascii.eqb_spec c "-") as [->|Hc].
  - exfalso. apply Hh; [lia | reflexivity].
  - assert (Hm : forall (A : Type) (a b : A),
              match c with "-"%char => a | _ => b end = b).
    { intros A a b.
      destruct c as [[] [] [] [] [] [] [] []]; try reflexivity.
      congruence. }
    apply Hm.
Qed.

(** ** The table of months *)

Lemma MONTH_MAP_months (s : string) (m : Z) :
  MONTH_MAP !! s = Some m <-> In (s, m) months.
Proof.
  rewrite <- list_elem_of_In. unfold MONTH_MAP. symmetry.
  apply (elem_of_list_to_map (M := gmap string)).
  apply (bool_decide_unpack _). vm_compute. reflexivity.
Qed.

Lemma MONTH_MAP_range (s : string) (m : Z) :
  MONTH_MAP !! s = Some m -> 1 <= m <= 12.
Proof.
  intros H. apply MONTH_MAP_months in H. simpl in H.
  repeat (destruct H as [H|H]; [inversion H; lia|]). destruct H.
Qed.

(** ** [parse_date] *)

Lemma parse_date_unfold (month_name year_text : string) :
  parse_date (Some month_name) (Some year_text) =
  (year <- int (strip year_text) ;;
   match MONTH_MAP !! strip month_name with
   | Some mo =>
       if mo =? 0 then Ok None
       else Ok (Some (str year +:+ "-" +:+ format_0d 2 mo))
   | None => Ok None
   end).
Proof. reflexivity. Qed.

Example parse_date_March_1990 :
  parse_date (Some "March") (Some "1990") = Ok (Some "1990-03").
Proof. vm_compute. reflexivity. Qed.

Example parse_date_Marchh_1990 :
  parse_date (Some "Marchh") (Some "1990") = Ok None.
Proof. vm_compute. reflexivity. Qed.

Example parse_date_January_abc :
  parse_date (Some "January") (Some "abc")
  = Raise (ValueError (invalid_int_literal "abc")).
Proof. vm_compute. reflexivity. Qed.

Example parse_date_March_5 :
  parse_date (Some "March") (Some "5") = Ok (Some "5-03")
  /\ format_0d 4 5 +:+ "-" +:+ format_0d 2 3 = "0005-03".
Proof. split; vm_compute; reflexivity. Qed.

(** C2, as the claim states it, fails: the year is written as [str(year)],
    not padded to four digits, so ("March", "5") gives "5-03" and not
    "0005-03"; and the year is parsed whether or not the month is in the
    table, so ("Marchh", "abc") raises and is not absent. *)
Lemma parse_date_not_padded_nor_absent :
  parse_date (Some "March") (Some "5")
    <> Ok (Some (format_0d 4 5 +:+ "-" +:+ format_0d 2 3))
  /\ parse_date (Some "Marchh") (Some "abc") <> Ok None.
Proof. split; vm_compute; discriminate. Qed.

(** C2, amended: [parse_date] trims both inputs.  When the trimmed year does
    not parse as an integer it raises the error of [int], whatever the month
    is.  When it parses as [y]: the result is absent when the trimmed month
    name is not one of the twelve names of the table (case-sensitive), and
    for a month of the table with number [m] and [y >= 1000] it is the year
    padded to four digits, a hyphen and the month padded to two digits. *)
Theorem parse_date_normalizes (month_name year_text : string) :
  match int (strip year_text) with
  | Raise e => parse_date (Some month_name) (Some year_text) = Raise e
  | Ok y =>
      ((forall m, ~ In (strip month_name, m) months) ->
       parse_date (Some month_name) (Some year_text) = Ok None)
      /\ (forall m, In (strip month_name, m) months -> 1000 <= y ->
          parse_date (Some month_name) (Some year_text)
          = Ok (Some (format_0d 4 y +:+ "-" +:+ format_0d 2 m)))
  end.
Proof.
  rewrite parse_date_unfold.
  destruct (int (strip year_text)) as [y|e]; simpl; [|reflexivity].
  split.
  - intros Hno. destruct (MONTH_MAP !! strip month_name) as [m|] eqn:Hm;
      [|reflexivity].
    apply MONTH_MAP_months in Hm. destruct (Hno m Hm).
  - intros m Hin Hy. apply MONTH_MAP_months in Hin. rewrite Hin.
    pose proof (MONTH_MAP_range _ _ Hin) as Hr.
    destruct (Z.eqb_spec m 0) as [->|_]; [lia|].
    rewrite format_04d_str by assumption. reflexivity.
Qed.

Lemma parse_date_normalizes_witness :
  In (strip " March ", 3) months /\ 1000 <= 1990 /\
  parse_date (Some " March ") (Some "1990 ") = Ok (Some "1990-03").
Proof.
  assert (Hin : In (strip " March ", 3) months)
    by (vm_compute; right; right; left; reflexivity).
  assert (Hy : 1000 <= 1990) by lia.
  split; [exact Hin|]. split; [exact Hy|].
  pose proof (parse_date_normalizes " March " "1990 ") as H.
  change (int (strip "1990 ")) with (Ok (A := Z) 1990) in H.
  destruct H as [_ H]. exact (H 3 Hin Hy).
Defined.

(** ** [parse_float] *)

Section ParseFloat.

Variable F : Type.
Variable float : string -> result F.

(** C5: [parse_float] never raises, given that [float] on a string raises
    nothing but [ValueError]: an absent input gives null; after trimming, the
    empty string and "." give null; a string that [float] does not convert
    gives null; any other string gives its float value. *)
Theorem parse_float_never_raises :
  (forall s e, float s = Raise e -> is_ValueError e = true) ->
  forall value : option string,
    parse_float F float value =
    Ok match value with
       | None => None
       | Some s =>
           if String.eqb (strip s) "" || String.eqb (strip s) "." then None
           else match float (strip s) with
                | Ok x => Some x
                | Raise _ => None
                end
       end.
Proof.
  intros Hfloat [s|]; [|reflexivity].
  unfold parse_float.
  assert (Hempty : negb (truthy (strip s)) = String.eqb (strip s) "").
  { destruct (strip s); reflexivity. }
  rewrite Hempty.
  destruct (String.eqb (strip s) "" || String.eqb (strip s) ".");
    [reflexivity|].
  destruct (float (strip s)) as [x|e] eqn:Hf; [reflexivity|].
  rewrite (Hfloat _ _ Hf). reflexivity.
Qed.

End ParseFloat.

Lemma Fixture_float_raises (s : string) (e : exn) :
  Fixture.float s = Raise e -> is_ValueError e = true.
Proof.
  unfold Fixture.float. destruct s; [intros H; inversion H; reflexivity|].
  destruct (Fixture.whole 0 (String a s)); intros H; inversion H; reflexivity.
Defined.

Lemma parse_float_never_raises_witness :
  (forall s e, Fixture.float s = Raise e -> is_ValueError e = true)
  /\ parse_float Fixture.F Fixture.float (Some " 3.4 ") = Ok (Some (34, 1%nat))
  /\ parse_float Fixture.F Fixture.float (Some " . ") = Ok None
  /\ parse_float Fixture.F Fixture.float (Some "abc") = Ok None
  /\ parse_float Fixture.F Fixture.float None = Ok None.
Proof.
  pose proof (parse_float_never_raises Fixture.F Fixture.float
                Fixture_float_raises) as H.
  split; [exact Fixture_float_raises|].
  split; [|split; [|split]].
  - exact (H (Some " 3.4 ")).
  - exact (H (Some " . ")).
  - exact (H (Some "abc")).
  - exact (H None).
Defined.

(** ** The loop *)

Section Loop.

Variable F : Type.
Variable body : row -> result (option (record F)).

(** The loop returns exactly when the body returns on every row, and then
    the list holds the records of the rows, in the order of the rows. *)
Lemma for_rows_spec (rows : list row) (processed : list (record F)) :
  forall out,
  for_rows body rows processed = Ok out <->
  Forall (returns body) rows /\ out = processed ++ omap (emitted body) rows.
Proof.
  revert processed. induction rows as [|r rows IH]; intros processed out.
  - simpl. rewrite app_nil_r. split.
    + inversion 1. split; [constructor | reflexivity].
    + intros [_ ->]. reflexivity.
  - simpl. unfold emitted at 1. split.
    + destruct (body r) as [[rec|]|e] eqn:Hr; simpl; intros H.
      * apply IH in H as [H ->]. split.
        -- constructor; [eexists; exact Hr | exact H].
        -- now rewrite <- app_assoc.
      * apply IH in H as [H ->]. split; [|reflexivity].
        constructor; [eexists; exact Hr | exact H].
      * discriminate.
    + intros [Hall ->]. inversion Hall as [|? ? [o Ho] Hrest]; subst.
      rewrite Ho. simpl. destruct o as [rec|].
      * apply IH. split; [exact Hrest | now rewrite <- app_assoc].
      * apply IH. split; [exact Hrest | reflexivity].
Qed.

(** The loop stops at the first row on which the body raises. *)
Lemma for_rows_raise (pre post : list row) (r : row) (e : exn) :
  forall processed,
  Forall (returns body) pre -> body r = Raise e ->
  for_rows body (pre ++ r :: post) processed = Raise e.
Proof.
  induction pre as [|r' pre IH]; intros processed Hpre Hr; simpl.
  - rewrite Hr. reflexivity.
  - inversion Hpre as [|? ? [o Ho] Hrest]; subst. rewrite Ho. simpl.
    destruct o; apply IH; assumption.
Qed.

(** A row on which the body ends in [continue] leaves no trace. *)
Lemma for_rows_skip (pre post : list row) (r : row) :
  forall processed,
  body r = Ok None ->
  for_rows body (pre ++ r :: post) processed
  = for_rows body (pre ++ post) processed.
Proof.
  induction pre as [|r' pre IH]; intros processed Hr; simpl.
  - rewrite Hr. reflexivity.
  - destruct (body r') as [[rec|]|e]; simpl; auto.
Qed.

End Loop.


(** ** The body of the loop *)

Section Rows.

Variable F : Type.
Variable float : string -> result F.

Abbreviation parse_float := (parse_float F float).
Abbreviation row_body := (row_body F float).

Lemma consumer_sentiment_row_month (r : row) :
  consumer_sentiment_row F float r =
  (month <- row_month r ;;
   match month with
   | None => Ok None
   | Some mo =>
       value <- parse_float (get r "ICS_ALL" None) ;;
       Ok match value with
          | None => None
          | Some x => Some [("month", VStr mo); ("index", VFloat x)]
          end
   end).
Proof.
  unfold consumer_sentiment_row, row_month.
  destruct (strip_value (get r "YYYY" (Some "0"))) as [y|e]; simpl; [|reflexivity].
  destruct (int y) as [year|e]; simpl; [|reflexivity].
  destruct (year <? START_YEAR); simpl; [reflexivity|].
  destruct (parse_date _ _) as [[mo|]|e]; simpl; try reflexivity.
  destruct (truthy mo); simpl; [|reflexivity].
  destruct (parse_float _) as [[x|]|e]; reflexivity.
Qed.

Lemma sentiment_components_row_month (r : row) :
  sentiment_components_row F float r =
  (month <- row_month r ;;
   match month with
   | None => Ok None
   | Some mo =>
       icc <- parse_float (get r "ICC" None) ;;
       ice <- parse_float (get r "ICE" None) ;;
       Ok match icc, ice with
          | None, None => None
          | _, _ => Some [("month", VStr mo);
                          ("index_current_conditions", of_float F icc);
                          ("index_expectations", of_float F ice)]
          end
   end).
Proof.
  unfold sentiment_components_row, row_month.
  destruct (strip_value (get r "YYYY" (Some "0"))) as [y|e]; simpl; [|reflexivity].
  destruct (int y) as [year|e]; simpl; [|reflexivity].
  destruct (year <? START_YEAR); simpl; [reflexivity|].
  destruct (parse_date _ _) as [[mo|]|e]; simpl; try reflexivity.
  destruct (truthy mo); simpl; [|reflexivity].
  destruct (parse_float (get r "ICC" None)) as [[x|]|e]; simpl; try reflexivity;
    destruct (parse_float (get r "ICE" None)) as [[x'|]|e']; reflexivity.
Qed.

Lemma inflation_expectations_row_month (r : row) :
  inflation_expectations_row F float r =
  (month <- row_month r ;;
   match month with
   | None => Ok None
   | Some mo =>
       px1 <- parse_float (get r "PX_MD" None) ;;
       px5 <- parse_float (get r "PX5_MD" None) ;;
       Ok match px1, px5 with
          | None, None => None
          | _, _ => Some [("month", VStr mo);
                          ("inflation_1yr", of_float F px1);
                          ("inflation_5yr", of_float F px5)]
          end
   end).
Proof.
  unfold inflation_expectations_row, row_month.
  destruct (strip_value (get r "YYYY" (Some "0"))) as [y|e]; simpl; [|reflexivity].
  destruct (int y) as [year|e]; simpl; [|reflexivity].
  destruct (year <? START_YEAR); simpl; [reflexivity|].
  destruct (parse_date _ _) as [[mo|]|e]; simpl; try reflexivity.
  destruct (truthy mo); simpl; [|reflexivity].
  destruct (parse_float (get r "PX_MD" None)) as [[x|]|e]; simpl; try reflexivity;
    destruct (parse_float (get r "PX5_MD" None)) as [[x'|]|e']; reflexivity.
Qed.

End Rows.

(** Case analysis on the dataset, each body written from its shared
    beginning. *)
Ltac by_dataset d :=
  destruct d; simpl;
  [ rewrite consumer_sentiment_row_month
  | rewrite sentiment_components_row_month
  | rewrite inflation_expectations_row_month ].

Section Bodies.

Variable F : Type.
Variable float : string -> result F.

Abbreviation parse_float := (parse_float F float).
Abbreviation row_body := (row_body F float).

(** A body raises what the shared beginning raises, and skips the row that
    the shared beginning skips. *)
Lemma row_body_month_raise (d : dataset) (r : row) (e : exn) :
  row_month r = Raise e -> row_body d r = Raise e.
Proof.
  intros H. by_dataset d; rewrite H; reflexivity.
Qed.

Lemma row_body_month_skip (d : dataset) (r : row) :
  row_month r = Ok None -> row_body d r = Ok None.
Proof.
  intros H. by_dataset d; rewrite H; reflexivity.
Qed.

(** An emitted record holds the month of the shared beginning. *)
Lemma row_body_month_emit (d : dataset) (r : row) (rec : record F) :
  row_body d r = Ok (Some rec) ->
  exists mo, row_month r = Ok (Some mo) /\ field "month" rec = Some (VStr mo).
Proof.
  by_dataset d; destruct (row_month r) as [[mo|]|e]; simpl; try discriminate.
  - destruct (parse_float _) as [[x|]|e]; simpl; try discriminate.
    intros H. inversion H. exists mo. split; reflexivity.
  - destruct (parse_float (get r "ICC" None)) as [[x|]|e]; simpl;
      try discriminate;
      destruct (parse_float (get r "ICE" None)) as [[x'|]|e']; simpl;
      try discriminate; intros H; inversion H; exists mo; split; reflexivity.
  - destruct (parse_float (get r "PX_MD" None)) as [[x|]|e]; simpl;
      try discriminate;
      destruct (parse_float (get r "PX5_MD" None)) as [[x'|]|e']; simpl;
      try discriminate; intros H; inversion H; exists mo; split; reflexivity.
Qed.

End Bodies.

(** *** The shared beginning *)

Lemma get_present (r : row) (k : string) (v d : option string) :
  r !! k = Some v -> get r k d = v.
Proof. intros H. unfold get. rewrite H. reflexivity. Qed.

(** Whatever the default, a year of 1978 or more is the text of the year
    column. *)
Lemma get_year_present (r : row) (ys : string) (year : Z) :
  get r "YYYY" (Some "0") = Some ys -> int (strip ys) = Ok year ->
  START_YEAR <= year -> r !! "YYYY" = Some (Some ys).
Proof.
  unfold get. destruct (r !! "YYYY") as [v|]; intros H Hi Hy.
  - now subst v.
  - inversion H; subst ys. vm_compute in Hi. inversion Hi; subst year.
    unfold START_YEAR in Hy. lia.
Qed.

Lemma row_month_year_raise (r : row) (ys : string) (e : exn) :
  r !! "YYYY" = Some (Some ys) -> int (strip ys) = Raise e ->
  row_month r = Raise e.
Proof.
  intros Hr Hi. unfold row_month. rewrite (get_present _ _ _ _ Hr). simpl.
  rewrite Hi. reflexivity.
Qed.

Lemma row_month_before_start (r : row) (ys : string) (year : Z) :
  get r "YYYY" (Some "0") = Some ys -> int (strip ys) = Ok year ->
  year < START_YEAR -> row_month r = Ok None.
Proof.
  intros Hr Hi Hy. unfold row_month. rewrite Hr. simpl. rewrite Hi. simpl.
  destruct (Z.ltb_spec year START_YEAR); [reflexivity | lia].
Qed.

Lemma month_text_truthy (year m : Z) :
  truthy (str year +:+ "-" +:+ format_0d 2 m) = true.
Proof. destruct (str year); reflexivity. Qed.

Lemma row_month_admissible (r : row) (ys ms : string) (year m : Z) :
  r !! "YYYY" = Some (Some ys) -> int (strip ys) = Ok year ->
  START_YEAR <= year ->
  get r "Month" (Some "") = Some ms -> MONTH_MAP !! strip ms = Some m ->
  row_month r = Ok (Some (str year +:+ "-" +:+ format_0d 2 m)).
Proof.
  intros Hr Hi Hy Hm Hl. unfold row_month.
  rewrite !(get_present _ _ _ _ Hr), Hm. simpl. rewrite Hi. simpl.
  destruct (Z.ltb_spec year START_YEAR); [lia|].
  rewrite parse_date_unfold, Hi, Hl. simpl.
  pose proof (MONTH_MAP_range _ _ Hl).
  destruct (Z.eqb_spec m 0); [lia|]. simpl.
  rewrite month_text_truthy. reflexivity.
Qed.

(** Conversely, a month comes only from a row with a year of 1978 or more
    and a month of the table. *)
Lemma row_month_inv (r : row) (mo : string) :
  row_month r = Ok (Some mo) ->
  exists ys ms year m,
    r !! "YYYY" = Some (Some ys) /\ int (strip ys) = Ok year /\
    START_YEAR <= year /\
    get r "Month" (Some "") = Some ms /\ MONTH_MAP !! strip ms = Some m /\
    mo = str year +:+ "-" +:+ format_0d 2 m.
Proof.
  unfold row_month.
  destruct (get r "YYYY" (Some "0")) as [ys|] eqn:Hg; simpl; [|discriminate].
  destruct (int (strip ys)) as [year|e] eqn:Hi; simpl; [|discriminate].
  destruct (Z.ltb_spec year START_YEAR) as [|Hy]; [discriminate|].
  pose proof (get_year_present _ _ _ Hg Hi Hy) as Hr.
  rewrite (get_present _ _ _ _ Hr).
  destruct (get r "Month" (Some "")) as [ms|] eqn:Hm; simpl; [|discriminate].
  fold (parse_date (Some ms) (Some ys)).
  rewrite parse_date_unfold, Hi. simpl.
  destruct (MONTH_MAP !! strip ms) as [m|] eqn:Hl; simpl; [|discriminate].
  destruct (m =? 0); simpl; [discriminate|].
  rewrite month_text_truthy. simpl. intros H. inversion H.
  exists ys, ms, year, m. repeat split; assumption.
Qed.

(** ** The rules on the numeric fields and on the year *)

Section Rules.

Variable F : Type.
Variable float : string -> result F.

Abbreviation parse_float := (parse_float F float).
Abbreviation row_body := (row_body F float).

(** What the three bodies return on a row with a year of 1978 or more and
    a month of the table, by the parsed numeric fields. *)
Lemma row_body_by_numeric_fields
    (r : row) (ys ms : string) (year m : Z) :
  r !! "YYYY" = Some (Some ys) -> int (strip ys) = Ok year ->
  START_YEAR <= year ->
  get r "Month" (Some "") = Some ms -> MONTH_MAP !! strip ms = Some m ->
  let month := str year +:+ "-" +:+ format_0d 2 m in
  (forall value, parse_float (get r "ICS_ALL" None) = Ok value ->
     row_body ConsumerSentiment r =
     Ok match value with
        | None => None
        | Some x => Some [("month", VStr month); ("index", VFloat x)]
        end)
  /\ (forall icc ice,
        parse_float (get r "ICC" None) = Ok icc ->
        parse_float (get r "ICE" None) = Ok ice ->
        row_body SentimentComponents r =
        Ok match icc, ice with
           | None, None => None
           | _, _ => Some [("month", VStr month);
                           ("index_current_conditions", of_float F icc);
                           ("index_expectations", of_float F ice)]
           end)
  /\ (forall px1 px5,
        parse_float (get r "PX_MD" None) = Ok px1 ->
        parse_float (get r "PX5_MD" None) = Ok px5 ->
        row_body InflationExpectations r =
        Ok match px1, px5 with
           | None, None => None
           | _, _ => Some [("month", VStr month);
                           ("inflation_1yr", of_float F px1);
                           ("inflation_5yr", of_float F px5)]
           end).
Proof.
  intros Hr Hi Hy Hm Hl month.
  pose proof (row_month_admissible _ _ _ _ _ Hr Hi Hy Hm Hl) as Hmo.
  fold month in Hmo. split; [|split].
  - intros value Hv. simpl. rewrite consumer_sentiment_row_month, Hmo.
    simpl. rewrite Hv. reflexivity.
  - intros icc ice Hc He. simpl.
    rewrite sentiment_components_row_month, Hmo. simpl.
    rewrite Hc. simpl. rewrite He. reflexivity.
  - intros px1 px5 H1 H5. simpl.
    rewrite inflation_expectations_row_month, Hmo. simpl.
    rewrite H1. simpl. rewrite H5. reflexivity.
Qed.

(** C4: a row whose year parses to less than 1978 is skipped by the body of
    every processor, whatever its month and numeric fields are, and the loop
    gives the same records with the row as without it. *)
Theorem year_before_start_excluded
    (d : dataset) (r : row) (ys : string) (year : Z) :
  get r "YYYY" (Some "0") = Some ys -> int (strip ys) = Ok year ->
  year < START_YEAR ->
  row_body d r = Ok None
  /\ forall pre post processed,
       for_rows (row_body d) (pre ++ r :: post) processed
       = for_rows (row_body d) (pre ++ post) processed.
Proof.
  intros Hg Hi Hy.
  assert (Hb : row_body d r = Ok None).
  { apply row_body_month_skip. exact (row_month_before_start _ _ _ Hg Hi Hy). }
  split; [exact Hb|]. intros pre post processed.
  apply for_rows_skip. exact Hb.
Qed.

End Rules.

(** ** The processors *)

Section Processors.

Variable F : Type.
Variable float : string -> result F.
Variable DictReader : string -> list row * option exn.
Variable validate : table F -> schema -> result unit.
Variable assert_valid_month : table F -> string -> result unit.
Variable upload_data : table F -> string -> result unit.
Variable publish : string -> config -> result unit.

Abbreviation row_body := (row_body F float).
Abbreviation scan_rows d csv_text :=
  (scan F DictReader (row_body d) csv_text).
Abbreviation process :=
  (processor F float DictReader validate assert_valid_month upload_data
     publish).
Abbreviation answer :=
  (collaborators F validate assert_valid_month upload_data publish).
Abbreviation made := (calls F validate assert_valid_month upload_data).
Abbreviation no_data d := (ValueError (text (no_data_message d))).

(** A run of a processor: the error of the loop; or the error for no data,
    with no call made; or the calls on the table of the records and what the
    collaborators answer. *)
Lemma processor_run (d : dataset) (csv_text : string) (log : list (event F)) :
  process d csv_text log =
  match scan_rows d csv_text with
  | Raise e => (Raise e, log)
  | Ok [] => (Raise (no_data d), log)
  | Ok processed =>
      (answer d (Table_from_pylist processed),
       log ++ made d (Table_from_pylist processed))
  end.
Proof.
  destruct d; simpl;
    unfold process_consumer_sentiment, process_sentiment_components,
      process_inflation_expectations, bind, lift;
    (destruct (scan _ _ _ _) as [[|rec processed]|e]; [reflexivity| |reflexivity]);
    unfold test_consumer_sentiment, test_sentiment_components,
      test_inflation_expectations, collaborators, calls,
      bind, print, call, raise; simpl;
    (destruct (validate _ _) as [[]|e1]; simpl;
       [|rewrite <- !app_assoc; reflexivity]);
    (destruct (assert_valid_month _ _) as [[]|e2]; simpl;
       [|rewrite <- !app_assoc; reflexivity]);
    (destruct (upload_data _ _) as [[]|e3]; simpl;
       rewrite <- !app_assoc; reflexivity).
Qed.

Lemma made_not_nil (d : dataset) (t : table F) : made d t <> [].
Proof. unfold calls. discriminate. Qed.

(** C6, amended: for every text, a processor ends in one of three ways.
    When the scan raises, on a row or in the reader, the processor fails
    with that error and has made no call.  When the scan returns, the
    processor raises its error for no data exactly when the scan has
    produced no record, and then it has made no call at all: no table is
    built, validated, uploaded or published.  With a record or more that
    error is not raised: the table is built and handed to the collaborators,
    and an error can only be one of theirs. *)
Theorem processor_fatal_errors
    (d : dataset) (csv_text : string) (log : list (event F)) :
  match scan_rows d csv_text with
  | Raise e => process d csv_text log = (Raise e, log)
  | Ok processed =>
      (process d csv_text log = (Raise (no_data d), log) <-> processed = [])
      /\ (processed <> [] ->
          process d csv_text log =
          (answer d (Table_from_pylist processed),
           log ++ made d (Table_from_pylist processed)))
  end.
Proof.
  rewrite processor_run.
  destruct (scan_rows d csv_text) as [[|rec processed]|e]; [| |reflexivity].
  - split; [split; reflexivity | intros H; now destruct H].
  - split; [|reflexivity]. split; [|discriminate].
    intros H. exfalso. inversion H as [[H1 H2]].
    apply (made_not_nil d (Table_from_pylist (rec :: processed))).
    apply (app_inv_head log). rewrite app_nil_r. exact H2.
Qed.


(** Whatever calls were made before, a text gives the same result and the
    same calls. *)
Lemma processor_log_independent (d : dataset) (csv_text : string) :
  exists (r : result unit) (evs : list (event F)),
    forall log, process d csv_text log = (r, log ++ evs).
Proof.
  destruct (scan_rows d csv_text) as [[|rec processed]|e] eqn:Hs.
  - exists (Raise (no_data d)), []. intros log.
    rewrite processor_run, Hs, app_nil_r. reflexivity.
  - exists (answer d (Table_from_pylist (rec :: processed))),
      (made d (Table_from_pylist (rec :: processed))).
    intros log. rewrite processor_run, Hs. reflexivity.
  - exists (Raise e), []. intros log.
    rewrite processor_run, Hs, app_nil_r. reflexivity.
Qed.

(** C1, amended: a row whose year column holds a text that [int] does not
    parse makes the body of every processor raise the error of [int]; the
    loop stops at that row, and the processor ends with that error, without a
    record and without a call. *)
Theorem unparseable_year_raises
    (d : dataset) (r : row) (ys : string) (e : exn)
    (csv_text : string) (pre post : list row) (stop : option exn)
    (log : list (event F)) :
  r !! "YYYY" = Some (Some ys) -> int (strip ys) = Raise e ->
  Forall (returns (row_body d)) pre ->
  DictReader csv_text = (pre ++ r :: post, stop) ->
  row_body d r = Raise e
  /\ (forall processed,
        for_rows (row_body d) (pre ++ r :: post) processed = Raise e)
  /\ process d csv_text log = (Raise e, log).
Proof.
  intros Hr Hi Hpre Hread.
  assert (Hb : row_body d r = Raise e).
  { apply row_body_month_raise. exact (row_month_year_raise _ _ _ Hr Hi). }
  assert (Hl : forall processed,
             for_rows (row_body d) (pre ++ r :: post) processed = Raise e).
  { intros processed. apply for_rows_raise; assumption. }
  split; [exact Hb|]. split; [exact Hl|].
  rewrite processor_run. unfold scan. rewrite Hread, Hl. reflexivity.
Qed.

End Processors.

(** ** What a row gives to the output *)

Section Contributions.

Variable F : Type.
Variable float : string -> result F.
Variable DictReader : string -> list row * option exn.
Variable validate : table F -> schema -> result unit.
Variable assert_valid_month : table F -> string -> result unit.
Variable upload_data : table F -> string -> result unit.
Variable publish : string -> config -> result unit.

Abbreviation parse_float := (parse_float F float).
Abbreviation row_body := (row_body F float).
Abbreviation contributes :=
  (row_contributes F float DictReader validate assert_valid_month
     upload_data publish).

Lemma for_rows_around
    (body : row -> result (option (record F)))
    (pre post : list row) (r : row) (o : option (record F)) :
  body r = Ok o ->
  forall processed,
  for_rows body (pre ++ r :: post) processed
  = (out <- for_rows body pre processed ;;
     for_rows body post (out ++ option_list o)).
Proof.
  intros Hr. induction pre as [|r' pre IH]; intros processed; simpl.
  - rewrite Hr. simpl. destruct o as [rec|]; simpl; [reflexivity|].
    now rewrite app_nil_r.
  - destruct (body r') as [[rec|]|e]; simpl; [apply IH | apply IH | reflexivity].
Qed.

Lemma omap_around
    (body : row -> result (option (record F)))
    (pre post : list row) (r : row) (o : option (record F)) :
  body r = Ok o ->
  omap (emitted body) (pre ++ r :: post)
  = omap (emitted body) pre ++ option_list o ++ omap (emitted body) post.
Proof.
  intros Hr. rewrite omap_app. f_equal.
  change (omap (emitted body) (r :: post))
    with (match emitted body r with
          | Some rec => rec :: omap (emitted body) post
          | None => omap (emitted body) post
          end).
  unfold emitted at 1. rewrite Hr. destruct o; reflexivity.
Qed.

(** A row on which the body returns [o] gives [o] to the loop, to the scan
    and to the processor. *)
Lemma row_contributes_intro (d : dataset) (r : row) (o : option (record F)) :
  row_body d r = Ok o -> contributes d r o.
Proof.
  intros Hr. split; [exact Hr|]. split.
  - intros pre post processed. apply for_rows_around. exact Hr.
  - intros csv_text pre post stop out log Hread Hscan.
    assert (Hout : out = omap (emitted (row_body d)) pre ++ option_list o
                         ++ omap (emitted (row_body d)) post).
    { unfold scan in Hscan. rewrite Hread in Hscan.
      destruct (for_rows (row_body d) (pre ++ r :: post) []) as [out'|e]
        eqn:Hf; simpl in Hscan; [|discriminate].
      apply for_rows_spec in Hf as [_ ->]. simpl in Hscan.
      destruct stop; [discriminate|]. inversion Hscan.
      apply omap_around. exact Hr. }
    split; [exact Hout|]. intros Ho.
    rewrite processor_run, Hscan.
    destruct out as [|rec out]; [|reflexivity].
    exfalso. destruct o as [rec|]; [|now apply Ho].
    symmetry in Hout. apply app_eq_nil in Hout as [_ Hout]. discriminate.
Qed.

(** C3: for a row with a year of 1978 or more and a month of the table.
    The consumer sentiment processor emits a record for the row exactly when
    the parsed [ICS_ALL] is not null.  The processors of the sentiment
    components ([ICC], [ICE]) and of the inflation expectations ([PX_MD],
    [PX5_MD]) emit a record exactly when one of their two parsed fields is
    not null, and the record holds both fields as parsed, a null one as
    null.  To emit is to put the record in the output, at the place of the
    row, and in the table that the processor builds; to drop is to leave
    nothing there. *)
Theorem admission_by_numeric_fields
    (r : row) (ys ms : string) (year m : Z) :
  r !! "YYYY" = Some (Some ys) -> int (strip ys) = Ok year ->
  START_YEAR <= year ->
  get r "Month" (Some "") = Some ms -> MONTH_MAP !! strip ms = Some m ->
  let month := str year +:+ "-" +:+ format_0d 2 m in
  (forall value, parse_float (get r "ICS_ALL" None) = Ok value ->
     contributes ConsumerSentiment r
       match value with
       | None => None
       | Some x => Some [("month", VStr month); ("index", VFloat x)]
       end)
  /\ (forall icc ice,
        parse_float (get r "ICC" None) = Ok icc ->
        parse_float (get r "ICE" None) = Ok ice ->
        contributes SentimentComponents r
          match icc, ice with
          | None, None => None
          | _, _ => Some [("month", VStr month);
                          ("index_current_conditions", of_float F icc);
                          ("index_expectations", of_float F ice)]
          end)
  /\ (forall px1 px5,
        parse_float (get r "PX_MD" None) = Ok px1 ->
        parse_float (get r "PX5_MD" None) = Ok px5 ->
        contributes InflationExpectations r
          match px1, px5 with
          | None, None => None
          | _, _ => Some [("month", VStr month);
                          ("inflation_1yr", of_float F px1);
                          ("inflation_5yr", of_float F px5)]
          end).
Proof.
  intros Hr Hi Hy Hm Hl month.
  destruct (row_body_by_numeric_fields F float r ys ms year m Hr Hi Hy Hm Hl)
    as (Hcs & Hsc & Hie).
  split; [|split].
  - intros value Hv. apply row_contributes_intro. exact (Hcs value Hv).
  - intros icc ice Hc He. apply row_contributes_intro. exact (Hsc icc ice Hc He).
  - intros px1 px5 H1 H5. apply row_contributes_intro. exact (Hie px1 px5 H1 H5).
Qed.

End Contributions.

(** ** Two runs on the same text *)

Section TwoRuns.

Variable F : Type.
Variable float : string -> result F.
Variable DictReader : string -> list row * option exn.

(** The collaborators of a first and of a second run, which may answer
    differently. *)
Variables validate1 validate2 : table F -> schema -> result unit.
Variables assert_valid_month1 assert_valid_month2
  : table F -> string -> result unit.
Variables upload_data1 upload_data2 : table F -> string -> result unit.
Variables publish1 publish2 : string -> config -> result unit.

Abbreviation row_body := (row_body F float).
Abbreviation scan_rows d csv_text :=
  (scan F DictReader (row_body d) csv_text).
Abbreviation run1 :=
  (processor F float DictReader validate1 assert_valid_month1 upload_data1
     publish1).
Abbreviation run2 :=
  (processor F float DictReader validate2 assert_valid_month2 upload_data2
     publish2).

(** Every call of a processor on a table hands over that table. *)
Lemma calls_tables
    (validate : table F -> schema -> result unit)
    (assert_valid_month upload_data : table F -> string -> result unit)
    (d : dataset) (t : table F) :
  exists evs,
    calls F validate assert_valid_month upload_data d t
    = Printed (transformed_line d (num_rows t))
      :: Validated t (schema_of d) :: evs
    /\ Forall (fun ev => forall t', event_table ev = Some t' -> t' = t) evs.
Proof.
  unfold calls. eexists. split; [reflexivity|].
  destruct (validate _ _); [|constructor].
  constructor; [intros t' H; inversion H; reflexivity|].
  destruct (assert_valid_month _ _); [|constructor].
  constructor; [intros t' H; inversion H|].
  constructor; [intros t' H; inversion H; reflexivity|].
  destruct (upload_data _ _); [|constructor].
  constructor; [intros t' H; inversion H | constructor].
Qed.

(** C9: two runs of a processor on the same text give the same records.
    Whatever calls were made before each run, and whatever the validator,
    the month check, the upload and the publication answer in each, either
    both runs end with the same error of the scan or for no data and build
    no table, or both build the table of the same records, those of the rows
    in their order, hand it to the validator first, and hand no other table
    to any call.  And two runs with the same collaborators give the same
    result and the same calls. *)
Theorem same_text_same_table
    (d : dataset) (csv_text : string) (log1 log2 : list (event F)) :
  ((exists e,
      run1 d csv_text log1 = (Raise e, log1)
      /\ run2 d csv_text log2 = (Raise e, log2)
      /\ (scan_rows d csv_text = Raise e
          \/ (scan_rows d csv_text = Ok []
              /\ e = ValueError (text (no_data_message d)))))
   \/ (exists out r1 r2 evs1 evs2,
         let t := Table_from_pylist out in
         scan_rows d csv_text = Ok out /\ out <> []
         /\ out = omap (emitted (row_body d)) (DictReader csv_text).1
         /\ run1 d csv_text log1
            = (r1, log1 ++ Printed (transformed_line d (length out))
                        :: Validated t (schema_of d) :: evs1)
         /\ run2 d csv_text log2
            = (r2, log2 ++ Printed (transformed_line d (length out))
                        :: Validated t (schema_of d) :: evs2)
         /\ Forall (fun ev => forall t', event_table ev = Some t' -> t' = t)
              (evs1 ++ evs2)))
  /\ (exists r evs,
        run1 d csv_text log1 = (r, log1 ++ evs)
        /\ run1 d csv_text log2 = (r, log2 ++ evs)).
Proof.
  split.
  - rewrite !processor_run.
    destruct (scan_rows d csv_text) as [[|rec processed]|e] eqn:Hs.
    + left. eexists. split; [reflexivity|]. split; [reflexivity|].
      right. split; reflexivity.
    + right.
      destruct (calls_tables validate1 assert_valid_month1 upload_data1 d
                  (Table_from_pylist (rec :: processed))) as (evs1 & -> & H1).
      destruct (calls_tables validate2 assert_valid_month2 upload_data2 d
                  (Table_from_pylist (rec :: processed))) as (evs2 & -> & H2).
      exists (rec :: processed). do 2 eexists. exists evs1, evs2. simpl.
      split; [reflexivity|]. split; [discriminate|]. split.
      { unfold scan in Hs. destruct (DictReader csv_text) as [rows stop].
        simpl in *.
        destruct (for_rows (row_body d) rows []) as [out|e] eqn:Hf;
          simpl in Hs; [|discriminate].
        apply for_rows_spec in Hf as [_ ->]. simpl in Hs.
        destruct stop; [discriminate|]. inversion Hs; reflexivity. }
      split; [reflexivity|]. split; [reflexivity|].
      apply Forall_app. split; assumption.
    + left. exists e. split; [reflexivity|]. split; [reflexivity|].
      left. reflexivity.
  - destruct (processor_log_independent F float DictReader validate1
                assert_valid_month1 upload_data1 publish1 d csv_text)
      as (r & evs & H).
    exists r, evs. split; apply H.
Qed.

End TwoRuns.

(** ** Validation of the tables *)

Lemma decimal_four (fuel : nat) (y : Z) :
  1000 <= y <= 9999 ->
  decimal (S (S (S (S fuel)))) y =
  String (digit_char (y / 10 / 10 / 10))
    (String (digit_char (y / 10 / 10 mod 10))
       (String (digit_char (y / 10 mod 10))
          (String (digit_char (y mod 10)) EmptyString))).
Proof.
  intros Hy.
  assert (H1 : 100 <= y / 10 <= 999)
    by (Z.to_euclidean_division_equations; lia).
  assert (H2 : 10 <= y / 10 / 10 <= 99)
    by (Z.to_euclidean_division_equations; lia).
  assert (H3 : 1 <= y / 10 / 10 / 10 <= 9)
    by (Z.to_euclidean_division_equations; lia).
  cbn [decimal].
  destruct (Z.ltb_spec y 10); [lia|].
  destruct (Z.ltb_spec (y / 10) 10); [lia|].
  destruct (Z.ltb_spec (y / 10 / 10) 10); [lia|].
  destruct (Z.ltb_spec (y / 10 / 10 / 10) 10); [|lia].
  reflexivity.
Qed.

(** From 1000 to 9999, [str] gives four digits. *)
Lemma str_four_digits (y : Z) :
  1000 <= y <= 9999 ->
  exists a b c d,
    str y = String a (String b (String c (String d EmptyString)))
    /\ is_digit a = true /\ is_digit b = true
    /\ is_digit c = true /\ is_digit d = true.
Proof.
  intros Hy. unfold str. destruct (Z.ltb_spec y 0); [lia|].
  pose proof (log2_fuel 3 y) as Hf. simpl in Hf.
  destruct (Z.to_nat (Z.log2 y)) as [|[|[|fuel]]]; try lia.
  rewrite decimal_four by assumption.
  do 4 eexists. split; [reflexivity|].
  repeat split; apply digit_char_cases;
    Z.to_euclidean_division_equations; lia.
Qed.

Lemma valid_month_text (year m : Z) (s : string) :
  1000 <= year <= 9999 -> MONTH_MAP !! s = Some m ->
  valid_month (str year +:+ "-" +:+ format_0d 2 m) = true.
Proof.
  intros Hy Hm.
  destruct (str_four_digits year Hy) as (a & b & c & d & -> & Ha & Hb & Hc & Hd).
  apply MONTH_MAP_months in Hm. simpl in Hm.
  repeat (destruct Hm as [Hm|Hm];
          [inversion Hm; subst;
           match goal with
           | |- context [format_0d 2 ?k] =>
               let v := eval vm_compute in (format_0d 2 k) in
               change (format_0d 2 k) with v
           end;
           cbv [String.append valid_month]; rewrite Ha, Hb, Hc, Hd;
           reflexivity|]).
  destruct Hm.
Qed.

Section Validation.

Variable F : Type.
Variable float : string -> result F.

Abbreviation row_body := (row_body F float).

Lemma forallb_swap {A B} (p : A -> B -> bool) (cols : list A) (rows : list B) :
  Forall (fun r => forallb (fun c => p c r) cols = true) rows ->
  forallb (fun c => forallb (p c) rows) cols = true.
Proof.
  intros H. apply forallb_forall. intros c Hc.
  apply forallb_forall. intros r Hr.
  rewrite Forall_forall in H. apply list_elem_of_In in Hr.
  specialize (H r Hr). rewrite forallb_forall in H. exact (H c Hc).
Qed.

(** On a table of records that conform to the schema, the validator checks
    the number of rows and nothing else fails. *)
Lemma validate_conforming (s : schema) (rows : list (record F)) :
  Forall (fun rec => record_conforms s rec = true) rows ->
  validate (Table_from_pylist rows) s =
  if (length rows <? min_rows s)%nat
  then Raise (validation_error "insufficient rows")
  else Ok tt.
Proof.
  intros H. unfold validate.
  assert (Hc : forallb (column_ok (Table_from_pylist rows)) (columns s) = true).
  { unfold column_ok. simpl.
    apply (forallb_swap (fun c r => match field c.1 r with
                                    | Some v => has_type F c.2 v
                                    | None => false
                                    end)).
    eapply Forall_impl; [exact H|]. intros rec Hrec.
    unfold record_conforms in Hrec. apply andb_true_iff in Hrec. tauto. }
  assert (Hn : forallb (no_nulls (Table_from_pylist rows)) (not_null s) = true).
  { unfold no_nulls. simpl.
    apply (forallb_swap (fun c r => match field c r with
                                    | Some VNone | None => false
                                    | Some _ => true
                                    end)).
    eapply Forall_impl; [exact H|]. intros rec Hrec.
    unfold record_conforms in Hrec. apply andb_true_iff in Hrec. tauto. }
  rewrite Hc, Hn. simpl. unfold enough_rows, num_rows. simpl.
  destruct (Nat.ltb_spec (length rows) (min_rows s));
    destruct (Nat.leb_spec (min_rows s) (length rows)); try lia; reflexivity.
Qed.

Lemma of_float_double (x : option F) : has_type F "double" (of_float F x) = true.
Proof. destruct x; reflexivity. Qed.

(** The records that a body emits conform to the schema of its dataset. *)
Lemma emitted_record_conforms (d : dataset) (r : row) (rec : record F) :
  row_body d r = Ok (Some rec) -> record_conforms (schema_of d) rec = true.
Proof.
  by_dataset d; destruct (row_month r) as [[mo|]|e]; simpl; try discriminate.
  - destruct (parse_float _ _ _) as [[x|]|e]; simpl; try discriminate.
    intros H. inversion H. reflexivity.
  - destruct (parse_float _ _ (get r "ICC" None)) as [icc|e]; simpl;
      [|discriminate].
    destruct (parse_float _ _ (get r "ICE" None)) as [ice|e]; simpl;
      [|discriminate].
    intros H.
    assert (rec = [("month", VStr mo);
                   ("index_current_conditions", of_float F icc);
                   ("index_expectations", of_float F ice)])
      by (destruct icc, ice; inversion H; reflexivity).
    subst rec. unfold record_conforms. cbn.
    rewrite !of_float_double. reflexivity.
  - destruct (parse_float _ _ (get r "PX_MD" None)) as [px1|e]; simpl;
      [|discriminate].
    destruct (parse_float _ _ (get r "PX5_MD" None)) as [px5|e]; simpl;
      [|discriminate].
    intros H.
    assert (rec = [("month", VStr mo);
                   ("inflation_1yr", of_float F px1);
                   ("inflation_5yr", of_float F px5)])
      by (destruct px1, px5; inversion H; reflexivity).
    subst rec. unfold record_conforms. cbn.
    rewrite !of_float_double. reflexivity.
Qed.

Lemma emitted_by_some_row (d : dataset) (rows : list row)
    (out : list (record F)) (rec : record F) :
  for_rows (row_body d) rows [] = Ok out -> rec ∈ out ->
  exists r, r ∈ rows /\ row_body d r = Ok (Some rec).
Proof.
  intros Hf Hin. apply for_rows_spec in Hf as [_ ->]. simpl in Hin.
  apply list_elem_of_omap in Hin as (r & Hr & Ha).
  exists r. split; [exact Hr|]. unfold emitted in Ha.
  destruct (row_body d r) as [[rec'|]|e]; inversion Ha. reflexivity.
Qed.

End Validation.

Section Tables.

Variable F : Type.
Variable float : string -> result F.

Abbreviation row_body := (row_body F float).

(** The validator and the number of rows: the three schemas ask for 100
    rows, and on the records of a loop nothing else can fail. *)
Lemma validate_row_count (d : dataset) :
  min_rows (schema_of d) = 100%nat
  /\ (forall t : table F,
        (num_rows t < 100)%nat ->
        enough_rows t (schema_of d) = false
        /\ exists e, validate t (schema_of d) = Raise e)
  /\ (forall t : table F,
        (100 <= num_rows t)%nat -> enough_rows t (schema_of d) = true)
  /\ (forall rows out,
        for_rows (row_body d) rows [] = Ok out ->
        validate (Table_from_pylist out) (schema_of d) =
        if (length out <? 100)%nat
        then Raise (validation_error "insufficient rows")
        else Ok tt).
Proof.
  assert (Hmin : min_rows (schema_of d) = 100%nat) by (destruct d; reflexivity).
  split; [exact Hmin|]. split; [|split].
  - intros t Ht.
    assert (He : enough_rows t (schema_of d) = false).
    { unfold enough_rows. rewrite Hmin. apply Nat.leb_gt. exact Ht. }
    split; [exact He|]. unfold validate. rewrite He.
    destruct (forallb (column_ok t) (columns (schema_of d))); simpl;
      [|eexists; reflexivity].
    destruct (forallb (no_nulls t) (not_null (schema_of d))); simpl;
      eexists; reflexivity.
  - intros t Ht. unfold enough_rows. rewrite Hmin. apply Nat.leb_le. exact Ht.
  - intros rows out Hf. rewrite <- Hmin at 1.
    apply validate_conforming. apply Forall_forall. intros rec Hin.
    destruct (emitted_by_some_row F float d rows out rec Hf Hin) as (r & _ & Hr).
    exact (emitted_record_conforms F float d r rec Hr).
Qed.

(** C10: every record that a processor emits holds, in its month field, the
    text of the parsed year of its row, which is 1978 or more, a hyphen and
    a month number from 01 to 12 in two digits.  Up to the year 9999 that
    text has the form YYYY-MM, and when no year of the input exceeds 9999
    the check of the month column passes on the assembled table. *)
Theorem month_field_well_formed
    (d : dataset) (rows : list row) (out : list (record F)) :
  for_rows (row_body d) rows [] = Ok out ->
  Forall (fun rec =>
            exists r ys year m,
              r ∈ rows /\ row_body d r = Ok (Some rec)
              /\ r !! "YYYY" = Some (Some ys) /\ int (strip ys) = Ok year
              /\ START_YEAR <= year /\ 1 <= m <= 12
              /\ field "month" rec
                 = Some (VStr (str year +:+ "-" +:+ format_0d 2 m))
              /\ (year <= 9999 ->
                  valid_month (str year +:+ "-" +:+ format_0d 2 m) = true))
         out
  /\ (Forall (fun r => forall ys year,
                r !! "YYYY" = Some (Some ys) -> int (strip ys) = Ok year ->
                year <= 9999) rows ->
      assert_valid_month (Table_from_pylist out) "month" = Ok tt).
Proof.
  intros Hf.
  assert (Hrec : forall rec, rec ∈ out ->
            exists r ys year m,
              r ∈ rows /\ row_body d r = Ok (Some rec)
              /\ r !! "YYYY" = Some (Some ys) /\ int (strip ys) = Ok year
              /\ START_YEAR <= year /\ 1 <= m <= 12
              /\ field "month" rec
                 = Some (VStr (str year +:+ "-" +:+ format_0d 2 m))
              /\ (year <= 9999 ->
                  valid_month (str year +:+ "-" +:+ format_0d 2 m) = true)).
  { intros rec Hin.
    destruct (emitted_by_some_row F float d rows out rec Hf Hin) as (r & Hr & Hb).
    destruct (row_body_month_emit F float d r rec Hb) as (mo & Hmo & Hfield).
    destruct (row_month_inv r mo Hmo) as (ys & ms & year & m & H1 & H2 & H3 & _ & H5 & ->).
    exists r, ys, year, m.
    repeat (split; [first [assumption | exact (MONTH_MAP_range _ _ H5)]|]).
    intros H9999. apply (valid_month_text year m (strip ms)); [|exact H5].
    unfold START_YEAR in H3. lia. }
  split; [apply Forall_forall; exact Hrec|].
  intros Hyears. unfold assert_valid_month. simpl.
  assert (Hall : forallb (fun r : record F =>
                            match field "month" r with
                            | Some (VStr s) => valid_month s
                            | _ => false
                            end) out = true).
  { apply forallb_forall. intros rec Hin. apply list_elem_of_In in Hin.
    destruct (Hrec rec Hin) as (r & ys & year & m & Hr & _ & H1 & H2 & _ & _ & Hfield & Hvalid).
    rewrite Hfield. apply Hvalid.
    rewrite Forall_forall in Hyears. exact (Hyears r Hr ys year H1 H2). }
  rewrite Hall. reflexivity.
Qed.

End Tables.

(** ** The minimum of 100 rows *)

Section RowCount.

Variable F : Type.
Variable float : string -> result F.
Variable DictReader : string -> list row * option exn.
Variable assert_valid_month : table F -> string -> result unit.
Variable upload_data : table F -> string -> result unit.
Variable publish : string -> config -> result unit.

Abbreviation row_body := (row_body F float).
Abbreviation scan_rows d csv_text :=
  (scan F DictReader (row_body d) csv_text).
Abbreviation test := (test_of F validate assert_valid_month).
Abbreviation process :=
  (processor F float DictReader validate assert_valid_month upload_data
     publish).
Abbreviation insufficient_rows := (validation_error "insufficient rows").

Lemma scan_for_rows (d : dataset) (csv_text : string) (out : list (record F)) :
  scan_rows d csv_text = Ok out ->
  for_rows (row_body d) (DictReader csv_text).1 [] = Ok out.
Proof.
  unfold scan. destruct (DictReader csv_text) as [rows stop]. simpl.
  destruct (for_rows (row_body d) rows []) as [out'|e]; simpl; [|discriminate].
  destruct stop; [discriminate|]. intros H. inversion H. reflexivity.
Qed.

(** C8: with the validator of the spec, the schema of each of the three
    datasets declares a minimum of 100 rows, and the test of a dataset
    raises on every table of fewer than 100 rows, right after the call of the
    validator.  On the table that a processor has assembled from fewer than
    100 records, the test and the processor raise the error for
    insufficient rows; the processor has then printed its line and called
    the validator, and nothing is checked further, uploaded or published.
    With 100 records or more the validator passes, and the test and the
    processor go on to the check of the months. *)
Theorem min_rows_100
    (d : dataset) (csv_text : string) (out : list (record F))
    (log : list (event F)) :
  scan_rows d csv_text = Ok out -> out <> [] ->
  let t := Table_from_pylist out in
  min_rows (schema_of d) = 100%nat
  /\ (forall t' : table F,
        (num_rows t' < 100)%nat ->
        exists e, test d t' log = (Raise e, log ++ [Validated t' (schema_of d)]))
  /\ ((length out < 100)%nat ->
      test d t log = (Raise insufficient_rows, log ++ [Validated t (schema_of d)])
      /\ process d csv_text log
         = (Raise insufficient_rows,
            log ++ [Printed (transformed_line d (length out));
                    Validated t (schema_of d)]))
  /\ ((100 <= length out)%nat ->
      validate t (schema_of d) = Ok tt
      /\ test d t log
         = match assert_valid_month t "month" with
           | Raise e =>
               (Raise e,
                log ++ [Validated t (schema_of d); MonthAsserted t "month"])
           | Ok _ =>
               (Ok tt,
                log ++ [Validated t (schema_of d); MonthAsserted t "month";
                        Printed (validated_line d (length out))])
           end
      /\ process d csv_text log
         = (_ <- assert_valid_month t "month" ;;
            _ <- upload_data t (id (config_of d)) ;;
            publish (id (config_of d)) (config_of d),
            log ++ calls F validate assert_valid_month upload_data d t)).
Proof.
  intros Hs Hne t.
  destruct (validate_row_count F float d) as (Hmin & Hsmall & _ & Hrows).
  pose proof (Hrows _ _ (scan_for_rows d csv_text out Hs)) as Hv.
  fold t in Hv.
  assert (Htest : forall t' log',
            test d t' log' =
            match validate t' (schema_of d) with
            | Raise e => (Raise e, log' ++ [Validated t' (schema_of d)])
            | Ok _ =>
                match assert_valid_month t' "month" with
                | Raise e =>
                    (Raise e, log' ++ [Validated t' (schema_of d);
                                       MonthAsserted t' "month"])
                | Ok _ =>
                    (Ok tt, log' ++ [Validated t' (schema_of d);
                                     MonthAsserted t' "month";
                                     Printed (validated_line d (num_rows t'))])
                end
            end).
  { intros t' log'. destruct d; simpl;
      unfold test_consumer_sentiment, test_sentiment_components,
        test_inflation_expectations, bind, print, call;
      (destruct (validate t' _) as [[]|e1]; [|reflexivity]);
      (destruct (assert_valid_month t' _) as [[]|e2]; simpl;
       rewrite <- !app_assoc; reflexivity). }
  assert (Hproc : process d csv_text log
                  = (collaborators F validate assert_valid_month upload_data
                       publish d t,
                     log ++ calls F validate assert_valid_month upload_data
                              d t)).
  { rewrite processor_run, Hs. destruct out; [now destruct Hne | reflexivity]. }
  split; [exact Hmin|]. split; [|split].
  - intros t' Ht'. destruct (Hsmall t' Ht') as (_ & e & He).
    exists e. rewrite Htest, He. reflexivity.
  - intros Hlt. apply Nat.ltb_lt in Hlt. rewrite Hlt in Hv. split.
    + rewrite Htest, Hv. reflexivity.
    + rewrite Hproc. unfold collaborators, calls. rewrite Hv. reflexivity.
  - intros Hge. apply Nat.ltb_ge in Hge. rewrite Hge in Hv.
    split; [exact Hv|]. split.
    + rewrite Htest, Hv. reflexivity.
    + rewrite Hproc. unfold collaborators. rewrite Hv. reflexivity.
Qed.

End RowCount.

(** * Examples on the stand-ins *)

Abbreviation fixture_body := (row_body Fixture.F Fixture.float).
Abbreviation fixture_scan d csv_text :=
  (scan Fixture.F Fixture.DictReader (fixture_body d) csv_text).

(** The end-to-end example: of the three rows, one record is left. *)
Example three_rows_one_record :
  fixture_scan ConsumerSentiment Fixture.three_rows
  = Ok [[("month", VStr "2020-01"); ("index", VFloat (955, 1%nat))]].
Proof. vm_compute. reflexivity. Qed.

(** Two rows of the same month give two records. *)
Example same_month_twice :
  fixture_scan ConsumerSentiment Fixture.twice
  = Ok [[("month", VStr "2020-01"); ("index", VFloat (955, 1%nat))];
        [("month", VStr "2020-01"); ("index", VFloat (955, 1%nat))]].
Proof. vm_compute. reflexivity. Qed.

(** C1, as the claim states it, fails: on a row whose year column holds
    "abc" the body of each processor raises the error of [int], the row is
    not skipped, and the run of the processor ends with that error, the rows
    that follow unread. *)
Lemma non_numeric_year_not_dropped :
  fixture_body ConsumerSentiment
    (Fixture.row3 "abc" "February" "ICS_ALL" "96.0") <> Ok None
  /\ fixture_body SentimentComponents
       (Fixture.row4 "abc" "February" "ICC" "96.0" "ICE" "80.1") <> Ok None
  /\ fixture_body InflationExpectations
       (Fixture.row4 "abc" "February" "PX_MD" "3.1" "PX5_MD" "2.9") <> Ok None
  /\ Fixture.process ConsumerSentiment Fixture.bad_year []
     = (Raise (ValueError (invalid_int_literal "abc")), []).
Proof.
  split; [|split; [|split]]; vm_compute; solve [discriminate | reflexivity].
Qed.

Lemma unparseable_year_raises_witness :
  Fixture.row3 "abc" "February" "ICS_ALL" "96.0" !! "YYYY" = Some (Some "abc")
  /\ int (strip "abc") = Raise (ValueError (invalid_int_literal "abc"))
  /\ Fixture.DictReader Fixture.bad_year
     = ([Fixture.row3 "2020" "January" "ICS_ALL" "95.5"]
        ++ Fixture.row3 "abc" "February" "ICS_ALL" "96.0"
        :: [Fixture.row3 "2020" "March" "ICS_ALL" "97"], None)
  /\ Fixture.process ConsumerSentiment Fixture.bad_year []
     = (Raise (ValueError (invalid_int_literal "abc")), []).
Proof.
  assert (H1 : Fixture.row3 "abc" "February" "ICS_ALL" "96.0" !! "YYYY"
               = Some (Some "abc")) by (vm_compute; reflexivity).
  assert (H2 : int (strip "abc") = Raise (ValueError (invalid_int_literal "abc")))
    by (vm_compute; reflexivity).
  assert (H3 : Forall (returns (fixture_body ConsumerSentiment))
                 [Fixture.row3 "2020" "January" "ICS_ALL" "95.5"]).
  { constructor; [|constructor]. eexists. vm_compute. reflexivity. }
  assert (H4 : Fixture.DictReader Fixture.bad_year
     = ([Fixture.row3 "2020" "January" "ICS_ALL" "95.5"]
        ++ Fixture.row3 "abc" "February" "ICS_ALL" "96.0"
        :: [Fixture.row3 "2020" "March" "ICS_ALL" "97"], None))
    by (vm_compute; reflexivity).
  split; [exact H1|]. split; [exact H2|]. split; [exact H4|].
  exact (proj2 (proj2
    (unparseable_year_raises Fixture.F Fixture.float Fixture.DictReader
       validate assert_valid_month Fixture.upload_data Fixture.publish
       ConsumerSentiment _ _ _ _ _ _ _ [] H1 H2 H3 H4))).
Defined.

Lemma year_before_start_excluded_witness :
  get (Fixture.row3 "1975" "June" "ICS_ALL" "80") "YYYY" (Some "0")
    = Some "1975"
  /\ int (strip "1975") = Ok 1975
  /\ 1975 < START_YEAR
  /\ fixture_body ConsumerSentiment
       (Fixture.row3 "1975" "June" "ICS_ALL" "80") = Ok None.
Proof.
  assert (H1 : get (Fixture.row3 "1975" "June" "ICS_ALL" "80") "YYYY"
                 (Some "0") = Some "1975") by (vm_compute; reflexivity).
  assert (H2 : int (strip "1975") = Ok 1975) by (vm_compute; reflexivity).
  assert (H3 : 1975 < START_YEAR) by (unfold START_YEAR; lia).
  split; [exact H1|]. split; [exact H2|]. split; [exact H3|].
  exact (proj1 (year_before_start_excluded Fixture.F Fixture.float
                  ConsumerSentiment _ _ _ H1 H2 H3)).
Defined.


Lemma month_field_well_formed_witness :
  for_rows (fixture_body ConsumerSentiment)
    (Fixture.DictReader Fixture.three_rows).1 []
  = Ok [[("month", VStr "2020-01"); ("index", VFloat (955, 1%nat))]]
  /\ assert_valid_month
       (Table_from_pylist
          [[("month", VStr "2020-01"); ("index", VFloat (955, 1%nat))]])
       "month" = Ok tt.
Proof.
  assert (H : for_rows (fixture_body ConsumerSentiment)
                (Fixture.DictReader Fixture.three_rows).1 []
              = Ok [[("month", VStr "2020-01");
                     ("index", VFloat (955, 1%nat))]])
    by (vm_compute; reflexivity).
  split; [exact H|].
  apply (month_field_well_formed Fixture.F Fixture.float
           ConsumerSentiment _ _ H).
  repeat constructor; intros ys year H1 H2;
    vm_compute in H1; inversion H1; subst ys;
    vm_compute in H2; inversion H2; lia.
Defined.

(** C6, as the claim states it, fails: a processor also fails fatally after
    a record was produced.  The first row of the text gives a record, the
    second has the year "abc", and the processor ends with the error of
    [int], which is not its error for no data. *)
Lemma fatal_error_with_a_record :
  for_rows (fixture_body ConsumerSentiment)
    [Fixture.row3 "2020" "January" "ICS_ALL" "95.5"] []
  = Ok [Stub.record_2020_01]
  /\ Fixture.process ConsumerSentiment Fixture.bad_year []
     = (Raise (ValueError (invalid_int_literal "abc")), [])
  /\ Fixture.process ConsumerSentiment Fixture.bad_year []
     <> (Raise (ValueError (text "No consumer sentiment data found")), []).
Proof. split; [|split]; vm_compute; solve [reflexivity | discriminate]. Qed.

Lemma processor_fatal_errors_witness :
  fixture_scan ConsumerSentiment Fixture.old_rows = Ok []
  /\ Fixture.process ConsumerSentiment Fixture.old_rows []
     = (Raise (ValueError (text "No consumer sentiment data found")), [])
  /\ fixture_scan ConsumerSentiment Fixture.bad_year
     = Raise (ValueError (invalid_int_literal "abc"))
  /\ Fixture.process ConsumerSentiment Fixture.bad_year []
     = (Raise (ValueError (invalid_int_literal "abc")), []).
Proof.
  assert (H1 : fixture_scan ConsumerSentiment Fixture.old_rows = Ok [])
    by (vm_compute; reflexivity).
  assert (H2 : fixture_scan ConsumerSentiment Fixture.bad_year
               = Raise (ValueError (invalid_int_literal "abc")))
    by (vm_compute; reflexivity).
  pose proof (processor_fatal_errors Fixture.F Fixture.float
                Fixture.DictReader validate assert_valid_month
                Fixture.upload_data Fixture.publish
                ConsumerSentiment Fixture.old_rows []) as Hold.
  pose proof (processor_fatal_errors Fixture.F Fixture.float
                Fixture.DictReader validate assert_valid_month
                Fixture.upload_data Fixture.publish
                ConsumerSentiment Fixture.bad_year []) as Hbad.
  rewrite H1 in Hold. rewrite H2 in Hbad.
  split; [exact H1|]. split; [exact (proj2 (proj1 Hold) eq_refl)|].
  split; [exact H2 | exact Hbad].
Defined.

Lemma admission_by_numeric_fields_witness :
  Fixture.row4 "2020" "March" "ICC" "" "ICE" "88.1" !! "YYYY"
    = Some (Some "2020")
  /\ int (strip "2020") = Ok 2020
  /\ START_YEAR <= 2020
  /\ get (Fixture.row4 "2020" "March" "ICC" "" "ICE" "88.1") "Month" (Some "")
     = Some "March"
  /\ MONTH_MAP !! strip "March" = Some 3
  /\ Fixture.DictReader Stub.components_row
     = ([] ++ Fixture.row4 "2020" "March" "ICC" "" "ICE" "88.1" :: [], None)
  /\ fixture_scan SentimentComponents Stub.components_row
     = Ok [[("month", VStr "2020-03");
            ("index_current_conditions", VNone);
            ("index_expectations", VFloat (881, 1%nat))]]
  /\ row_contributes Fixture.F Fixture.float Fixture.DictReader
       validate assert_valid_month Fixture.upload_data Fixture.publish
       SentimentComponents
       (Fixture.row4 "2020" "March" "ICC" "" "ICE" "88.1")
       (Some [("month", VStr "2020-03");
              ("index_current_conditions", VNone);
              ("index_expectations", VFloat (881, 1%nat))])
  /\ row_contributes Fixture.F Fixture.float Fixture.DictReader
       validate assert_valid_month Fixture.upload_data Fixture.publish
       ConsumerSentiment
       (Fixture.row4 "2020" "March" "ICC" "" "ICE" "88.1") None.
Proof.
  assert (H1 : Fixture.row4 "2020" "March" "ICC" "" "ICE" "88.1" !! "YYYY"
               = Some (Some "2020")) by (vm_compute; reflexivity).
  assert (H2 : int (strip "2020") = Ok 2020) by (vm_compute; reflexivity).
  assert (H3 : START_YEAR <= 2020) by (unfold START_YEAR; lia).
  assert (H4 : get (Fixture.row4 "2020" "March" "ICC" "" "ICE" "88.1")
                 "Month" (Some "") = Some "March") by (vm_compute; reflexivity).
  assert (H5 : MONTH_MAP !! strip "March" = Some 3) by (vm_compute; reflexivity).
  pose proof (admission_by_numeric_fields Fixture.F Fixture.float
                Fixture.DictReader validate assert_valid_month
                Fixture.upload_data Fixture.publish
                _ _ _ _ _ H1 H2 H3 H4 H5) as (Hcs & Hsc & _).
  split; [exact H1|]. split; [exact H2|]. split; [exact H3|].
  split; [exact H4|]. split; [exact H5|].
  split; [vm_compute; reflexivity|]. split; [vm_compute; reflexivity|].
  split.
  - apply (Hsc None (Some (881, 1%nat))); vm_compute; reflexivity.
  - apply (Hcs None). vm_compute. reflexivity.
Defined.

Lemma min_rows_100_witness :
  fixture_scan ConsumerSentiment (Stub.text_2020 99)
    = Ok (Fixture.records_2020 99)
  /\ (length (Fixture.records_2020 99) < 100)%nat
  /\ Fixture.process ConsumerSentiment (Stub.text_2020 99) []
     = (Raise (validation_error "insufficient rows"),
        [] ++ [Printed (transformed_line ConsumerSentiment
                          (length (Fixture.records_2020 99)));
               Validated (Table_from_pylist (Fixture.records_2020 99))
                 (schema_of ConsumerSentiment)])
  /\ fixture_scan ConsumerSentiment (Stub.text_2020 100)
     = Ok (Fixture.records_2020 100)
  /\ (100 <= length (Fixture.records_2020 100))%nat
  /\ validate (Table_from_pylist (Fixture.records_2020 100))
       (schema_of ConsumerSentiment) = Ok tt.
Proof.
  assert (H99 : fixture_scan ConsumerSentiment (Stub.text_2020 99)
                = Ok (Fixture.records_2020 99)) by (vm_compute; reflexivity).
  assert (L99 : (length (Fixture.records_2020 99) < 100)%nat)
    by (vm_compute; lia).
  assert (H100 : fixture_scan ConsumerSentiment (Stub.text_2020 100)
                 = Ok (Fixture.records_2020 100)) by (vm_compute; reflexivity).
  assert (L100 : (100 <= length (Fixture.records_2020 100))%nat)
    by (vm_compute; lia).
  assert (N99 : Fixture.records_2020 99 <> []) by discriminate.
  assert (N100 : Fixture.records_2020 100 <> []) by discriminate.
  pose proof (min_rows_100 Fixture.F Fixture.float Fixture.DictReader
                assert_valid_month Fixture.upload_data Fixture.publish
                ConsumerSentiment _ _ [] H99 N99) as (_ & _ & Hsmall & _).
  pose proof (min_rows_100 Fixture.F Fixture.float Fixture.DictReader
                assert_valid_month Fixture.upload_data Fixture.publish
                ConsumerSentiment _ _ [] H100 N100) as (_ & _ & _ & Hlarge).
  split; [exact H99|]. split; [exact L99|].
  split; [exact (proj2 (Hsmall L99))|].
  split; [exact H100|]. split; [exact L100|].
  exact (proj1 (Hlarge L100)).
Defined.

(** * Further properties *)

(** ** Trimming *)

Lemma lstrip_head (s : string) :
  lstrip s = EmptyString
  \/ exists c t, lstrip s = String c t /\ isspace c = false.
Proof.
  induction s as [|c s IH]; simpl; [left; reflexivity|].
  destruct (isspace c) eqn:Hc; [exact IH|].
  right. exists c, s. split; [reflexivity | exact Hc].
Qed.

Lemma rstrip_head (c : ascii) (t : string) :
  isspace c = false -> exists t', rstrip (String c t) = String c t'.
Proof.
  intros Hc. simpl. destruct (rstrip t) as [|d r].
  - rewrite Hc. eexists. reflexivity.
  - eexists. reflexivity.
Qed.

Lemma rstrip_idempotent (s : string) : rstrip (rstrip s) = rstrip s.
Proof.
  induction s as [|c s IH]; simpl; [reflexivity|].
  destruct (rstrip s) as [|d r] eqn:Hr.
  - destruct (isspace c) eqn:Hc; simpl; [reflexivity|].
    rewrite Hc. reflexivity.
  - change (rstrip (String c (String d r)))
      with (match rstrip (String d r) with
            | EmptyString =>
                if isspace c then EmptyString else String c EmptyString
            | r' => String c r'
            end).
    rewrite IH. reflexivity.
Qed.

(** Trimming a trimmed string changes nothing. *)
Lemma strip_idempotent (s : string) : strip (strip s) = strip s.
Proof.
  unfold strip. destruct (lstrip_head s) as [->|(c & t & -> & Hc)].
  - reflexivity.
  - destruct (rstrip_head c t Hc) as [t' Ht]. rewrite Ht at 1.
    simpl lstrip. rewrite Hc, <- Ht. apply rstrip_idempotent.
Qed.

Lemma strip_value_trimmed (v : option string) :
  strip_value (strip <$> v) = strip_value v.
Proof. destruct v as [s|]; simpl; [|reflexivity]. now rewrite strip_idempotent. Qed.

(** X2: [parse_date] gives the same result, value or exception, on its
    arguments and on its trimmed arguments. *)
Theorem parse_date_trimmed (month_str year_str : option string) :
  parse_date (strip <$> month_str) (strip <$> year_str)
  = parse_date month_str year_str.
Proof.
  unfold parse_date. rewrite !strip_value_trimmed. reflexivity.
Qed.

Section Trimming.

Variable F : Type.
Variable float : string -> result F.

(** X1: [parse_float] gives the same result on a value and on the trimmed
    value: white space around a number never changes what is parsed. *)
Theorem parse_float_trimmed (value : option string) :
  parse_float F float (strip <$> value) = parse_float F float value.
Proof.
  destruct value as [s|]; simpl; [|reflexivity].
  rewrite strip_idempotent. reflexivity.
Qed.

Lemma get_strip_fields (r : row) (k : string) (d : option string) :
  strip <$> d = d ->
  get (strip_fields r) k d = strip <$> get r k d.
Proof.
  intros Hd. unfold get, strip_fields. rewrite lookup_fmap.
  destruct (r !! k) as [v|]; simpl; [reflexivity | now rewrite Hd].
Qed.

Lemma row_month_strip_fields (r : row) :
  row_month (strip_fields r) = row_month r.
Proof.
  unfold row_month.
  rewrite !get_strip_fields by reflexivity.
  rewrite strip_value_trimmed, parse_date_trimmed. reflexivity.
Qed.

(** X3: the body of every processor gives the same result on a row and on
    the row with every field trimmed. *)
Theorem row_body_strip_fields (d : dataset) (r : row) :
  row_body F float d (strip_fields r) = row_body F float d r.
Proof.
  destruct d; simpl;
    rewrite ?consumer_sentiment_row_month, ?sentiment_components_row_month,
      ?inflation_expectations_row_month;
    rewrite row_month_strip_fields;
    rewrite !get_strip_fields by reflexivity;
    rewrite !parse_float_trimmed; reflexivity.
Qed.

End Trimming.

(** ** Rows with missing fields *)

Section MissingFields.

Variable F : Type.
Variable float : string -> result F.
Variable DictReader : string -> list row * option exn.
Variable validate : table F -> schema -> result unit.
Variable assert_valid_month : table F -> string -> result unit.
Variable upload_data : table F -> string -> result unit.
Variable publish : string -> config -> result unit.

Abbreviation row_body := (row_body F float).
Abbreviation process :=
  (processor F float DictReader validate assert_valid_month upload_data
     publish).

Lemma row_month_short_line (r : row) (ys : string) (year : Z) :
  r !! "YYYY" = Some None
  \/ (r !! "YYYY" = Some (Some ys) /\ int (strip ys) = Ok year
      /\ START_YEAR <= year /\ r !! "Month" = Some None) ->
  row_month r = Raise none_has_no_strip.
Proof.
  unfold row_month. intros [Hy|(Hy & Hi & Hs & Hm)].
  - rewrite (get_present _ _ _ _ Hy). reflexivity.
  - rewrite !(get_present _ _ _ _ Hy), (get_present _ _ _ _ Hm). simpl.
    rewrite Hi. simpl.
    destruct (Z.ltb_spec year START_YEAR); [lia | reflexivity].
Qed.

(** X4: a line with fewer fields than the header, on which the year is
    [None], or the month is [None] while the year is 1978 or more, is not
    skipped: the body of every processor raises [AttributeError], and the
    loop stops there. *)
Theorem short_line_raises
    (d : dataset) (r : row) (ys : string) (year : Z)
    (rows : list row) (processed : list (record F)) :
  r !! "YYYY" = Some None
  \/ (r !! "YYYY" = Some (Some ys) /\ int (strip ys) = Ok year
      /\ START_YEAR <= year /\ r !! "Month" = Some None) ->
  row_body d r = Raise none_has_no_strip
  /\ for_rows (row_body d) (r :: rows) processed = Raise none_has_no_strip.
Proof.
  intros H.
  assert (Hb : row_body d r = Raise none_has_no_strip).
  { apply row_body_month_raise. exact (row_month_short_line r ys year H). }
  split; [exact Hb|]. simpl. rewrite Hb. reflexivity.
Qed.

Lemma row_month_no_year_column (r : row) :
  r !! "YYYY" = None -> row_month r = Ok None.
Proof.
  intros H. apply (row_month_before_start r "0" 0).
  - unfold get. rewrite H. reflexivity.
  - vm_compute. reflexivity.
  - unfold START_YEAR. lia.
Qed.

(** X5: when no row has a year column, as for a file whose header lacks
    [YYYY], every row is skipped, whatever else it holds, and the processor
    ends with its error for no data, without a call. *)
Theorem no_year_column_no_data
    (d : dataset) (csv_text : string) (rows : list row)
    (log : list (event F)) :
  DictReader csv_text = (rows, None) ->
  Forall (fun r => r !! "YYYY" = None) rows ->
  Forall (fun r => row_body d r = Ok None) rows
  /\ process d csv_text log
     = (Raise (ValueError (text (no_data_message d))), log).
Proof.
  intros Hread Hrows.
  assert (Hskip : Forall (fun r => row_body d r = Ok None) rows).
  { eapply Forall_impl; [exact Hrows|]. intros r Hr.
    apply row_body_month_skip. exact (row_month_no_year_column r Hr). }
  split; [exact Hskip|].
  assert (Hf : for_rows (row_body d) rows [] = Ok []).
  { apply for_rows_spec. split.
    - eapply Forall_impl; [exact Hskip|]. intros r Hr. eexists. exact Hr.
    - clear Hread Hrows. induction Hskip as [|r rows Hr _ IH]; [reflexivity|].
      simpl in *. unfold emitted at 1. rewrite Hr. exact IH. }
  rewrite processor_run. unfold scan. rewrite Hread, Hf. reflexivity.
Qed.

(** X6: a row whose year is an integer and whose month, trimmed, is not a
    name of the table (another case, an abbreviation, or no month column at
    all) is skipped by every body without an error, whatever its numeric
    fields hold. *)
Theorem unknown_month_skipped
    (d : dataset) (r : row) (ys ms : string) (year : Z) :
  get r "YYYY" (Some "0") = Some ys -> int (strip ys) = Ok year ->
  get r "Month" (Some "") = Some ms -> MONTH_MAP !! strip ms = None ->
  row_body d r = Ok None.
Proof.
  intros Hy Hi Hm Hl. apply row_body_month_skip.
  destruct (Z.ltb_spec year START_YEAR) as [Hlt|Hge].
  - exact (row_month_before_start r ys year Hy Hi Hlt).
  - pose proof (get_year_present r ys year Hy Hi Hge) as Hr.
    unfold row_month. rewrite !(get_present _ _ _ _ Hr), Hm. simpl.
    rewrite Hi. simpl.
    destruct (Z.ltb_spec year START_YEAR); [lia|].
    rewrite parse_date_unfold, Hi, Hl. reflexivity.
Qed.

(** X7: the shape of the records.  A consumer sentiment record holds a month
    and an index that is a float, never null; a record of the two other
    datasets holds a month and its two fields, of which one at least is not
    null.  The month is never null. *)
Theorem record_shape (d : dataset) (r : row) (rec : record F) :
  row_body d r = Ok (Some rec) ->
  exists mo,
    row_month r = Ok (Some mo) /\
    match d with
    | ConsumerSentiment =>
        exists x, rec = [("month", VStr mo); ("index", VFloat x)]
    | SentimentComponents =>
        exists icc ice,
          rec = [("month", VStr mo);
                 ("index_current_conditions", of_float F icc);
                 ("index_expectations", of_float F ice)]
          /\ (icc <> None \/ ice <> None)
    | InflationExpectations =>
        exists px1 px5,
          rec = [("month", VStr mo);
                 ("inflation_1yr", of_float F px1);
                 ("inflation_5yr", of_float F px5)]
          /\ (px1 <> None \/ px5 <> None)
    end.
Proof.
  by_dataset d; destruct (row_month r) as [[mo|]|e]; simpl; try discriminate.
  - destruct (parse_float _ _ _) as [[x|]|e]; simpl; try discriminate.
    intros H. inversion H. exists mo. split; [reflexivity|].
    exists x. reflexivity.
  - destruct (parse_float _ _ (get r "ICC" None)) as [icc|e]; simpl;
      [|discriminate].
    destruct (parse_float _ _ (get r "ICE" None)) as [ice|e]; simpl;
      [|discriminate].
    intros H. exists mo. split; [reflexivity|]. exists icc, ice.
    destruct icc, ice; inversion H; (split; [reflexivity|]);
      solve [left; discriminate | right; discriminate].
  - destruct (parse_float _ _ (get r "PX_MD" None)) as [px1|e]; simpl;
      [|discriminate].
    destruct (parse_float _ _ (get r "PX5_MD" None)) as [px5|e]; simpl;
      [|discriminate].
    intros H. exists mo. split; [reflexivity|]. exists px1, px5.
    destruct px1, px5; inversion H; (split; [reflexivity|]);
      solve [left; discriminate | right; discriminate].
Qed.

End MissingFields.

(** ** The loop, the reader and the calls of a processor *)

Section Runs.

Variable F : Type.
Variable float : string -> result F.
Variable DictReader : string -> list row * option exn.
Variable validate : table F -> schema -> result unit.
Variable assert_valid_month : table F -> string -> result unit.
Variable upload_data : table F -> string -> result unit.
Variable publish : string -> config -> result unit.

Abbreviation row_body := (row_body F float).
Abbreviation scan_rows d csv_text :=
  (scan F DictReader (row_body d) csv_text).
Abbreviation process :=
  (processor F float DictReader validate assert_valid_month upload_data
     publish).

(** X8: the loop on two lists of rows one after the other is the loop on
    the first, then the loop on the second from the records of the first;
    no row changes what another row gives. *)
Theorem for_rows_app
    (body : row -> result (option (record F)))
    (rows1 rows2 : list row) (processed : list (record F)) :
  for_rows body (rows1 ++ rows2) processed
  = (out <- for_rows body rows1 processed ;; for_rows body rows2 out).
Proof.
  revert processed. induction rows1 as [|r rows1 IH]; intros processed; simpl.
  - reflexivity.
  - destruct (body r) as [[rec|]|e]; simpl; [apply IH | apply IH | reflexivity].
Qed.

Lemma for_rows_raise_inv
    (body : row -> result (option (record F))) (rows : list row) (e : exn) :
  forall processed,
  for_rows body rows processed = Raise e ->
  exists pre r post,
    rows = pre ++ r :: post /\ Forall (returns body) pre /\ body r = Raise e.
Proof.
  induction rows as [|r rows IH]; intros processed; simpl; [discriminate|].
  destruct (body r) as [o|e'] eqn:Hr; simpl.
  - intros H.
    assert (Hrest : exists pre r' post,
               rows = pre ++ r' :: post /\ Forall (returns body) pre
               /\ body r' = Raise e)
      by (destruct o; exact (IH _ H)).
    destruct Hrest as (pre & r' & post & -> & Hpre & Hr').
    exists (r :: pre), r', post. split; [reflexivity|]. split; [|exact Hr'].
    constructor; [eexists; exact Hr | exact Hpre].
  - intros H. inversion H; subst e'.
    exists [], r, rows. split; [reflexivity|]. split; [constructor | exact Hr].
Qed.

(** X9: a processor raises before it has a table in two cases only: the
    body raises on a row, all the rows before it having passed, and the
    error is that of this first row; or every row passes and the reader
    stops with an error.  In both cases the processor ends with that error
    and has made no call: nothing is printed, validated or uploaded. *)
Theorem scan_raises
    (d : dataset) (csv_text : string) (e : exn) (log : list (event F)) :
  (scan_rows d csv_text = Raise e <->
   (exists pre r post,
      (DictReader csv_text).1 = pre ++ r :: post
      /\ Forall (returns (row_body d)) pre /\ row_body d r = Raise e)
   \/ (Forall (returns (row_body d)) (DictReader csv_text).1
       /\ (DictReader csv_text).2 = Some e))
  /\ (scan_rows d csv_text = Raise e -> process d csv_text log = (Raise e, log)).
Proof.
  split.
  - unfold scan. destruct (DictReader csv_text) as [rows stop]. simpl. split.
    + destruct (for_rows (row_body d) rows []) as [out|e'] eqn:Hf; simpl.
      * destruct stop as [e'|]; [|discriminate].
        intros H. inversion H; subst e'. right.
        apply for_rows_spec in Hf as [Hall _]. split; [exact Hall | reflexivity].
      * intros H. inversion H; subst e'. left.
        exact (for_rows_raise_inv _ _ _ _ Hf).
    + intros [(pre & r & post & -> & Hpre & Hr)|[Hall ->]].
      * rewrite (for_rows_raise F (row_body d) pre post r e [] Hpre Hr).
        reflexivity.
      * assert (Hf : for_rows (row_body d) rows []
                     = Ok (omap (emitted (row_body d)) rows))
          by (apply for_rows_spec; split; [exact Hall | reflexivity]).
        rewrite Hf. reflexivity.
  - intros H. rewrite processor_run, H. reflexivity.
Qed.

(** X10: a processor gives at most one record for a row: when the loop
    returns, there are no more records than rows read. *)
Theorem no_more_records_than_rows
    (d : dataset) (csv_text : string) (out : list (record F)) :
  scan_rows d csv_text = Ok out ->
  (length out <= length (DictReader csv_text).1)%nat.
Proof.
  intros H. unfold scan in H.
  destruct (DictReader csv_text) as [rows stop]. simpl in *.
  destruct (for_rows (row_body d) rows []) as [out'|e] eqn:Hf; simpl in H;
    [|discriminate].
  apply for_rows_spec in Hf as [_ ->]. simpl in H.
  destruct stop; [discriminate|]. inversion H; subst out. clear H.
  induction rows as [|r rows IH]; [reflexivity|].
  change (omap (emitted (row_body d)) (r :: rows))
    with (match emitted (row_body d) r with
          | Some rec => rec :: omap (emitted (row_body d)) rows
          | None => omap (emitted (row_body d)) rows
          end).
  destruct (emitted (row_body d) r); simpl length; lia.
Qed.

(** X11: a processor returns exactly when the loop returns a record or more
    and the validator, the month check, the upload and the publication all
    return, on the table of those records; its calls are then these, in this
    order, after a line that tells the number of records. *)
Theorem processor_returns
    (d : dataset) (csv_text : string) (log log' : list (event F)) :
  process d csv_text log = (Ok tt, log') <->
  exists processed,
    let t := Table_from_pylist processed in
    scan_rows d csv_text = Ok processed /\ processed <> []
    /\ validate t (schema_of d) = Ok tt
    /\ assert_valid_month t "month" = Ok tt
    /\ upload_data t (id (config_of d)) = Ok tt
    /\ publish (id (config_of d)) (config_of d) = Ok tt
    /\ log' = log ++ all_calls d t.
Proof.
  rewrite processor_run. split.
  - destruct (scan F DictReader (row_body d) csv_text)
      as [[|rec processed]|e]; try discriminate.
    unfold collaborators, calls, all_calls.
    destruct (validate _ _) as [[]|e1] eqn:Hv; simpl; [|discriminate].
    destruct (assert_valid_month _ _) as [[]|e2] eqn:Ha; simpl; [|discriminate].
    destruct (upload_data _ _) as [[]|e3] eqn:Hu; simpl; [|discriminate].
    destruct (publish _ _) as [[]|e4] eqn:Hp; [|discriminate].
    intros H. inversion H as [Hl].
    exists (rec :: processed). simpl.
    repeat (split; [first [reflexivity | discriminate | assumption]|]).
    reflexivity.
  - intros (processed & Hs & Hne & Hv & Ha & Hu & Hp & ->).
    rewrite Hs. destruct processed as [|rec processed]; [now destruct Hne|].
    unfold collaborators, calls, all_calls.
    rewrite Hv. simpl. rewrite Ha. simpl. rewrite Hu. simpl. rewrite Hp.
    reflexivity.
Qed.

(** X12: a table is uploaded only after the validator and the month check
    have passed on that very table, which is the table of the records of the
    loop; and a dataset is published only after its table is uploaded. *)
Theorem upload_only_after_validation
    (d : dataset) (csv_text : string)
    (r : result unit) (evs : list (event F)) (t : table F) (name : string) :
  process d csv_text [] = (r, evs) ->
  Uploaded t name ∈ evs ->
  (exists processed,
     scan_rows d csv_text = Ok processed /\ t = Table_from_pylist processed)
  /\ name = id (config_of d)
  /\ validate t (schema_of d) = Ok tt
  /\ assert_valid_month t "month" = Ok tt
  /\ (forall name' c, Published name' c ∈ evs ->
        upload_data t name = Ok tt /\ name' = name /\ c = config_of d).
Proof.
  rewrite processor_run.
  destruct (scan F DictReader (row_body d) csv_text)
    as [[|rec processed]|e] eqn:Hs.
  { intros H; inversion H; subst. intros Hin. inversion Hin. }
  2: { intros H; inversion H; subst. intros Hin. inversion Hin. }
  simpl. unfold calls.
  destruct (validate _ _) as [[]|e1] eqn:Hv;
    [destruct (assert_valid_month _ _) as [[]|e2] eqn:Ha;
     [destruct (upload_data _ _) as [[]|e3] eqn:Hu|]|];
    intros H; inversion H; subst; clear H; intros Hin;
    repeat (apply elem_of_cons in Hin as [Hin|Hin]; [try discriminate|]);
    try (apply elem_of_nil in Hin; destruct Hin);
    inversion Hin; subst;
    (split; [exists (rec :: processed); split; reflexivity|]);
    (split; [reflexivity|]); (split; [assumption|]); (split; [assumption|]);
    intros name' c Hpub;
    repeat (apply elem_of_cons in Hpub as [Hpub|Hpub]; [try discriminate|]);
    try (apply elem_of_nil in Hpub; destruct Hpub);
    inversion Hpub; subst; auto.
Qed.

End Runs.

(** ** [run] of the transform *)

Section TransformRun.

Variable F : Type.
Variable float : string -> result F.
Variable DictReader : string -> list row * option exn.
Variable validate : table F -> schema -> result unit.
Variable assert_valid_month : table F -> string -> result unit.
Variable upload_data : table F -> string -> result unit.
Variable publish : string -> config -> result unit.
Variable load_raw_json : string -> result (gmap string string).

Abbreviation process :=
  (processor F float DictReader validate assert_valid_month upload_data
     publish).
Abbreviation run :=
  (TransformSentiment.run F float DictReader validate assert_valid_month
     upload_data publish load_raw_json).

(** X13: with the three keys in the raw data, [run] is the three processors
    in the order consumer sentiment, sentiment components, inflation
    expectations, each from the log that the one before has left; the first
    that raises ends the run with its error, and the following ones are not
    started. *)
Theorem run_in_sequence
    (raw_data : gmap string string) (cs sc ie : string)
    (log : list (event F)) :
  load_raw_json "sentiment_data" = Ok raw_data ->
  raw_data !! "consumer_sentiment" = Some cs ->
  raw_data !! "sentiment_components" = Some sc ->
  raw_data !! "inflation_expectations" = Some ie ->
  run log =
  match process ConsumerSentiment cs log with
  | (Raise e, log1) => (Raise e, log1)
  | (Ok _, log1) =>
      match process SentimentComponents sc log1 with
      | (Raise e, log2) => (Raise e, log2)
      | (Ok _, log2) => process InflationExpectations ie log2
      end
  end.
Proof.
  intros Hload Hcs Hsc Hie.
  unfold TransformSentiment.run, bind, lift, getitem. simpl.
  rewrite Hload, Hcs.
  destruct (process_consumer_sentiment _ _ _ _ _ _ _ cs log) as [[[]|e] log1];
    [|reflexivity].
  rewrite Hsc.
  destruct (process_sentiment_components _ _ _ _ _ _ _ sc log1)
    as [[[]|e] log2]; [|reflexivity].
  rewrite Hie. reflexivity.
Qed.

(** X14: a key that is missing from the raw data is found only when its
    turn comes.  Without the first key the run ends with [KeyError] before
    any call; without the second key it ends with [KeyError] after the first
    dataset has been processed, so that a first dataset that passes is
    already uploaded and published. *)
Theorem run_missing_key
    (raw_data : gmap string string) (log : list (event F)) :
  load_raw_json "sentiment_data" = Ok raw_data ->
  (raw_data !! "consumer_sentiment" = None ->
   run log = (Raise (OtherError "KeyError" (text "consumer_sentiment")), log))
  /\ (forall cs log1,
        raw_data !! "consumer_sentiment" = Some cs ->
        raw_data !! "sentiment_components" = None ->
        process ConsumerSentiment cs log = (Ok tt, log1) ->
        run log
        = (Raise (OtherError "KeyError" (text "sentiment_components")), log1)
        /\ Published (id CONSUMER_SENTIMENT) CONSUMER_SENTIMENT ∈ log1).
Proof.
  intros Hload. split.
  - intros Hcs. unfold TransformSentiment.run, bind, lift, getitem.
    rewrite Hload, Hcs. reflexivity.
  - intros cs log1 Hcs Hsc Hp. split.
    + unfold TransformSentiment.run, bind, lift, getitem.
      rewrite Hload, Hcs. simpl in Hp. rewrite Hp, Hsc. reflexivity.
    + rewrite processor_run in Hp.
      destruct (scan F DictReader _ cs) as [[|rec processed]|e];
        try discriminate.
      unfold collaborators, calls in Hp.
      destruct (validate _ _) as [[]|e1]; simpl in Hp; [|discriminate].
      destruct (assert_valid_month _ _) as [[]|e2]; simpl in Hp;
        [|discriminate].
      destruct (upload_data _ _) as [[]|e3]; simpl in Hp; [|discriminate].
      inversion Hp. apply elem_of_app. right. apply list_elem_of_In.
      simpl. do 5 right. left. reflexivity.
Qed.

End TransformRun.

(** ** [run] of the ingest *)

Section IngestRun.

Import IngestSentiment.

Variable http_get : string -> result response.
Variable save_raw_json : gmap string string -> string -> result unit.

Abbreviation ingest_run := (IngestSentiment.run http_get save_raw_json).
Abbreviation download := (IngestSentiment.download http_get).

(** One turn of the loop of the ingest. *)
Lemma fetch_all_step
    (filename key : string) (files : list (string * string))
    (all_data : gmap string string) (log : list call) :
  fetch_all http_get ((filename, key) :: files) all_data log =
  match download filename with
  | Raise e => (Raise e, log ++ fetch_calls filename)
  | Ok t =>
      fetch_all http_get files (<[key := t]> all_data)
        (log ++ fetch_calls filename)
  end.
Proof.
  unfold IngestSentiment.download, fetch_calls. simpl.
  rewrite <- !app_assoc. simpl.
  destruct (http_get _) as [resp|e]; simpl; [|reflexivity].
  destruct (raise_for_status resp) as [[]|e]; reflexivity.
Qed.

(** X15: when one of the three downloads fails, by [get] or by
    [raise_for_status], the ingest raises and [save_raw_json] is not called:
    no partial data is saved. *)
Theorem ingest_saves_nothing_on_failure
    (filename key : string) (e : exn) (log : list call) :
  In (filename, key) FILES -> download filename = Raise e ->
  exists e' calls,
    ingest_run log = (Raise e', log ++ calls)
    /\ forall data name, SaveRawJson data name ∉ calls.
Proof.
  intros Hin Hd. unfold IngestSentiment.run, FILES.
  assert (Hno : forall fs data name,
            SaveRawJson data name ∉ concat (map fetch_calls fs)).
  { intros fs data name H. apply list_elem_of_In, in_concat in H
      as (l & Hl & Hx). apply in_map_iff in Hl as (f & <- & _).
    simpl in Hx. destruct Hx as [Hx|[Hx|[]]]; discriminate. }
  rewrite fetch_all_step.
  destruct (download "tbmics.csv") as [t1|e1] eqn:H1.
  2: { exists e1, (concat (map fetch_calls ["tbmics.csv"])).
       split; [simpl; reflexivity | intros data name; apply Hno]. }
  rewrite fetch_all_step.
  destruct (download "tbmiccice.csv") as [t2|e2] eqn:H2.
  2: { exists e2, (concat (map fetch_calls ["tbmics.csv"; "tbmiccice.csv"])).
       split; [simpl; rewrite <- app_assoc; reflexivity
              | intros data name; apply Hno]. }
  rewrite fetch_all_step.
  destruct (download "tbmpx1px5.csv") as [t3|e3] eqn:H3.
  2: { exists e3, (concat (map fetch_calls
                     ["tbmics.csv"; "tbmiccice.csv"; "tbmpx1px5.csv"])).
       split; [simpl; rewrite <- !app_assoc; reflexivity
              | intros data name; apply Hno]. }
  exfalso. simpl in Hin.
  destruct Hin as [Hin|[Hin|[Hin|[]]]]; inversion Hin; subst; congruence.
Qed.

(** X16: when the three downloads pass, the ingest calls [save_raw_json]
    once, last, under the name that the transform loads, with a dict of
    exactly the three keys that the transform reads, each bound to the text
    of its file: the transform finds every key. *)
Theorem ingest_saves_three_keys (t1 t2 t3 : string) (log : list call) :
  download "tbmics.csv" = Ok t1 ->
  download "tbmiccice.csv" = Ok t2 ->
  download "tbmpx1px5.csv" = Ok t3 ->
  exists data,
    ingest_run log =
    (save_raw_json data "sentiment_data",
     log ++ fetch_calls "tbmics.csv" ++ fetch_calls "tbmiccice.csv"
         ++ fetch_calls "tbmpx1px5.csv"
         ++ [SaveRawJson data "sentiment_data"])
    /\ getitem data "consumer_sentiment" = Ok t1
    /\ getitem data "sentiment_components" = Ok t2
    /\ getitem data "inflation_expectations" = Ok t3
    /\ dom data = {[ "consumer_sentiment"; "sentiment_components";
                     "inflation_expectations" ]}.
Proof.
  intros H1 H2 H3.
  exists (<["inflation_expectations" := t3]>
            (<["sentiment_components" := t2]>
               (<["consumer_sentiment" := t1]> ∅))).
  split; [|split; [|split; [|split]]].
  - unfold IngestSentiment.run, FILES.
    rewrite fetch_all_step, H1, fetch_all_step, H2, fetch_all_step, H3.
    simpl fetch_all.
    rewrite <- !app_assoc. reflexivity.
  - unfold getitem. rewrite !lookup_insert_ne by discriminate.
    rewrite lookup_insert_eq. reflexivity.
  - unfold getitem. rewrite lookup_insert_ne by discriminate.
    rewrite lookup_insert_eq. reflexivity.
  - unfold getitem. rewrite lookup_insert_eq. reflexivity.
  - rewrite !dom_insert_L, dom_empty_L. set_solver.
Qed.

End IngestRun.

(** ** [main] *)

Section MainPhases.

Variable validate_environment : result unit.
Variable ingest_run : result unit.
Variable transform_run : result unit.

Abbreviation run_main :=
  (main validate_environment ingest_run transform_run).

(** X17: which phases [main] runs.  The ingest runs exactly when the
    environment is valid and [--transform-only] is not given.  The transform
    runs exactly when the environment is valid, [--ingest-only] is not given,
    and the ingest has returned or was not run.  So with both options
    neither phase runs, and a failed ingest leaves the transform out. *)
Theorem main_phases (a : args) :
  (IngestRun ∈ (run_main a).2 <->
   validate_environment = Ok tt /\ transform_only a = false)
  /\ (TransformRun ∈ (run_main a).2 <->
      validate_environment = Ok tt /\ ingest_only a = false
      /\ (transform_only a = true \/ ingest_run = Ok tt)).
Proof.
  unfold main. destruct a as [io to]. simpl.
  destruct validate_environment as [[]|e]; destruct io, to; simpl;
    try (destruct ingest_run as [[]|e']; simpl);
    rewrite !list_elem_of_In; simpl;
    intuition (try discriminate; try congruence).
Qed.

End MainPhases.

(** ** Examples of the further properties *)

Lemma short_line_raises_witness :
  Stub.short_line !! "YYYY" = Some None
  /\ fixture_body ConsumerSentiment Stub.short_line = Raise none_has_no_strip.
Proof.
  assert (H : Stub.short_line !! "YYYY" = Some None)
    by (vm_compute; reflexivity).
  split; [exact H|].
  exact (proj1 (short_line_raises Fixture.F Fixture.float ConsumerSentiment
                  Stub.short_line "" 0 [] [] (or_introl H))).
Defined.

Lemma no_year_column_no_data_witness :
  Fixture.DictReader Stub.no_year_column
    = ((Fixture.DictReader Stub.no_year_column).1, None)
  /\ Forall (fun r : row => r !! "YYYY" = None)
       (Fixture.DictReader Stub.no_year_column).1
  /\ length (Fixture.DictReader Stub.no_year_column).1 = 1%nat
  /\ Fixture.process ConsumerSentiment Stub.no_year_column []
     = (Raise (ValueError (text "No consumer sentiment data found")), []).
Proof.
  assert (H1 : Fixture.DictReader Stub.no_year_column
               = ((Fixture.DictReader Stub.no_year_column).1, None))
    by (vm_compute; reflexivity).
  assert (H2 : Forall (fun r : row => r !! "YYYY" = None)
                 (Fixture.DictReader Stub.no_year_column).1).
  { change (Fixture.DictReader Stub.no_year_column).1
      with [({[ "Month" := Some "January"; "ICS_ALL" := Some "95.5" ]} : row)].
    constructor; [vm_compute; reflexivity | constructor]. }
  split; [exact H1|]. split; [exact H2|]. split; [vm_compute; reflexivity|].
  exact (proj2 (no_year_column_no_data Fixture.F Fixture.float
                  Fixture.DictReader validate assert_valid_month
                  Fixture.upload_data Fixture.publish ConsumerSentiment
                  Stub.no_year_column _ [] H1 H2)).
Defined.

Lemma unknown_month_skipped_witness :
  get (Fixture.row3 "2020" "Jan" "ICS_ALL" "95.5") "YYYY" (Some "0")
    = Some "2020"
  /\ int (strip "2020") = Ok 2020
  /\ get (Fixture.row3 "2020" "Jan" "ICS_ALL" "95.5") "Month" (Some "")
     = Some "Jan"
  /\ MONTH_MAP !! strip "Jan" = None
  /\ fixture_body ConsumerSentiment
       (Fixture.row3 "2020" "Jan" "ICS_ALL" "95.5") = Ok None.
Proof.
  assert (H1 : get (Fixture.row3 "2020" "Jan" "ICS_ALL" "95.5") "YYYY"
                 (Some "0") = Some "2020") by (vm_compute; reflexivity).
  assert (H2 : int (strip "2020") = Ok 2020) by (vm_compute; reflexivity).
  assert (H3 : get (Fixture.row3 "2020" "Jan" "ICS_ALL" "95.5") "Month"
                 (Some "") = Some "Jan") by (vm_compute; reflexivity).
  assert (H4 : MONTH_MAP !! strip "Jan" = None) by (vm_compute; reflexivity).
  split; [exact H1|]. split; [exact H2|]. split; [exact H3|].
  split; [exact H4|].
  exact (unknown_month_skipped Fixture.F Fixture.float ConsumerSentiment
           _ _ _ _ H1 H2 H3 H4).
Defined.

Lemma record_shape_witness :
  fixture_body SentimentComponents
    (Fixture.row4 "2020" "March" "ICC" "" "ICE" "88.1")
  = Ok (Some [("month", VStr "2020-03");
              ("index_current_conditions", VNone);
              ("index_expectations", VFloat (881, 1%nat))])
  /\ exists mo icc ice,
       [("month", VStr "2020-03");
        ("index_current_conditions", VNone);
        ("index_expectations", VFloat (881, 1%nat))]
       = [("month", VStr mo);
          ("index_current_conditions", of_float Fixture.F icc);
          ("index_expectations", of_float Fixture.F ice)]
       /\ (icc <> None \/ ice <> None).
Proof.
  assert (H : fixture_body SentimentComponents
                (Fixture.row4 "2020" "March" "ICC" "" "ICE" "88.1")
              = Ok (Some [("month", VStr "2020-03");
                          ("index_current_conditions", VNone);
                          ("index_expectations", VFloat (881, 1%nat))]))
    by (vm_compute; reflexivity).
  split; [exact H|].
  destruct (record_shape Fixture.F Fixture.float SentimentComponents _ _ H)
    as (mo & _ & icc & ice & Hrec & Hnull).
  exists mo, icc, ice. split; [exact Hrec | exact Hnull].
Defined.

Lemma scan_raises_witness :
  fixture_scan ConsumerSentiment Fixture.bad_year
    = Raise (ValueError (invalid_int_literal "abc"))
  /\ Stub.process ConsumerSentiment Fixture.bad_year []
     = (Raise (ValueError (invalid_int_literal "abc")), []).
Proof.
  assert (H : fixture_scan ConsumerSentiment Fixture.bad_year
              = Raise (ValueError (invalid_int_literal "abc")))
    by (vm_compute; reflexivity).
  split; [exact H|].
  exact (proj2 (scan_raises Fixture.F Fixture.float Fixture.DictReader
                  Stub.validate_any assert_valid_month Fixture.upload_data
                  Fixture.publish ConsumerSentiment Fixture.bad_year _ []) H).
Defined.

Lemma no_more_records_than_rows_witness :
  fixture_scan ConsumerSentiment Fixture.three_rows = Ok [Stub.record_2020_01]
  /\ (length [Stub.record_2020_01]
      <= length (Fixture.DictReader Fixture.three_rows).1)%nat.
Proof.
  assert (H : fixture_scan ConsumerSentiment Fixture.three_rows
              = Ok [Stub.record_2020_01]) by (vm_compute; reflexivity).
  split; [exact H|].
  exact (no_more_records_than_rows Fixture.F Fixture.float Fixture.DictReader
           ConsumerSentiment Fixture.three_rows _ H).
Defined.

Lemma processor_returns_witness :
  fixture_scan ConsumerSentiment Fixture.three_rows = Ok [Stub.record_2020_01]
  /\ Stub.process ConsumerSentiment Fixture.three_rows []
     = (Ok tt,
        all_calls ConsumerSentiment (Table_from_pylist [Stub.record_2020_01])).
Proof.
  assert (H : fixture_scan ConsumerSentiment Fixture.three_rows
              = Ok [Stub.record_2020_01]) by (vm_compute; reflexivity).
  split; [exact H|].
  apply (processor_returns Fixture.F Fixture.float Fixture.DictReader
           Stub.validate_any assert_valid_month Fixture.upload_data
           Fixture.publish ConsumerSentiment Fixture.three_rows [] _).
  exists [Stub.record_2020_01]. simpl.
  split; [exact H|]. split; [discriminate|].
  split; [reflexivity|]. split; [vm_compute; reflexivity|].
  split; [reflexivity|]. split; reflexivity.
Defined.

Lemma upload_only_after_validation_witness :
  Stub.process ConsumerSentiment Fixture.three_rows []
    = (Ok tt,
       all_calls ConsumerSentiment (Table_from_pylist [Stub.record_2020_01]))
  /\ Uploaded (Table_from_pylist [Stub.record_2020_01])
       "umich_consumer_sentiment"
     ∈ all_calls ConsumerSentiment (Table_from_pylist [Stub.record_2020_01])
  /\ assert_valid_month (Table_from_pylist [Stub.record_2020_01]) "month"
     = Ok tt.
Proof.
  assert (H1 : Stub.process ConsumerSentiment Fixture.three_rows []
               = (Ok tt, all_calls ConsumerSentiment
                           (Table_from_pylist [Stub.record_2020_01])))
    by (vm_compute; reflexivity).
  assert (H2 : Uploaded (Table_from_pylist [Stub.record_2020_01])
                 "umich_consumer_sentiment"
               ∈ all_calls ConsumerSentiment
                   (Table_from_pylist [Stub.record_2020_01])).
  { apply list_elem_of_In. simpl. do 4 right. left. reflexivity. }
  split; [exact H1|]. split; [exact H2|].
  exact (proj1 (proj2 (proj2 (proj2
    (upload_only_after_validation Fixture.F Fixture.float Fixture.DictReader
       Stub.validate_any assert_valid_month Fixture.upload_data
       Fixture.publish ConsumerSentiment Fixture.three_rows _ _ _ _
       H1 H2))))).
Defined.

Abbreviation stub_run load :=
  (TransformSentiment.run Fixture.F Fixture.float Fixture.DictReader
     Stub.validate_any assert_valid_month Fixture.upload_data
     Fixture.publish load).

(** With the three keys, the first dataset passes and the second, which has
    no row, ends the run with its error for no data. *)
Lemma run_in_sequence_witness :
  Stub.load_all "sentiment_data"
    = Ok {[ "consumer_sentiment" := Fixture.three_rows;
            "sentiment_components" := "YYYY,Month,ICC,ICE";
            "inflation_expectations" := "YYYY,Month,PX_MD,PX5_MD" ]}
  /\ stub_run Stub.load_all []
     = (Raise (ValueError (text "No sentiment components data found")),
        all_calls ConsumerSentiment (Table_from_pylist [Stub.record_2020_01])).
Proof.
  split; [reflexivity|].
  rewrite (run_in_sequence Fixture.F Fixture.float Fixture.DictReader
             Stub.validate_any assert_valid_month Fixture.upload_data
             Fixture.publish Stub.load_all _
             Fixture.three_rows "YYYY,Month,ICC,ICE" "YYYY,Month,PX_MD,PX5_MD"
             [] eq_refl);
    vm_compute; reflexivity.
Defined.

Lemma run_missing_key_witness :
  Stub.load_first_only "sentiment_data"
    = Ok {[ "consumer_sentiment" := Fixture.three_rows ]}
  /\ Stub.process ConsumerSentiment Fixture.three_rows []
     = (Ok tt,
        all_calls ConsumerSentiment (Table_from_pylist [Stub.record_2020_01]))
  /\ stub_run Stub.load_first_only []
     = (Raise (OtherError "KeyError" (text "sentiment_components")),
        all_calls ConsumerSentiment (Table_from_pylist [Stub.record_2020_01])).
Proof.
  assert (H : Stub.process ConsumerSentiment Fixture.three_rows []
              = (Ok tt, all_calls ConsumerSentiment
                          (Table_from_pylist [Stub.record_2020_01])))
    by (vm_compute; reflexivity).
  split; [reflexivity|]. split; [exact H|].
  apply (proj2 (run_missing_key Fixture.F Fixture.float Fixture.DictReader
                  Stub.validate_any assert_valid_month Fixture.upload_data
                  Fixture.publish Stub.load_first_only _ [] eq_refl)
           Fixture.three_rows _);
    [vm_compute; reflexivity | vm_compute; reflexivity | exact H].
Defined.

Lemma ingest_saves_nothing_on_failure_witness :
  In ("tbmiccice.csv", "sentiment_components") IngestSentiment.FILES
  /\ IngestSentiment.download Stub.http_get_404 "tbmiccice.csv"
     = Raise (OtherError "HTTPError" (text "404"))
  /\ exists e calls,
       IngestSentiment.run Stub.http_get_404 Stub.save_raw_json []
       = (Raise e, calls)
       /\ forall data name, IngestSentiment.SaveRawJson data name ∉ calls.
Proof.
  assert (H1 : In ("tbmiccice.csv", "sentiment_components")
                 IngestSentiment.FILES) by (simpl; right; left; reflexivity).
  assert (H2 : IngestSentiment.download Stub.http_get_404 "tbmiccice.csv"
               = Raise (OtherError "HTTPError" (text "404")))
    by (vm_compute; reflexivity).
  split; [exact H1|]. split; [exact H2|].
  exact (ingest_saves_nothing_on_failure Stub.http_get_404 Stub.save_raw_json
           _ _ _ [] H1 H2).
Defined.

Lemma ingest_saves_three_keys_witness :
  IngestSentiment.download Stub.http_get "tbmics.csv" = Ok Fixture.three_rows
  /\ IngestSentiment.download Stub.http_get "tbmiccice.csv"
     = Ok "YYYY,Month,ICC,ICE"
  /\ IngestSentiment.download Stub.http_get "tbmpx1px5.csv"
     = Ok "YYYY,Month,PX_MD,PX5_MD"
  /\ exists data,
       (IngestSentiment.run Stub.http_get Stub.save_raw_json []).1
       = Stub.save_raw_json data "sentiment_data"
       /\ getitem data "consumer_sentiment" = Ok Fixture.three_rows.
Proof.
  assert (H1 : IngestSentiment.download Stub.http_get "tbmics.csv"
               = Ok Fixture.three_rows) by (vm_compute; reflexivity).
  assert (H2 : IngestSentiment.download Stub.http_get "tbmiccice.csv"
               = Ok "YYYY,Month,ICC,ICE") by (vm_compute; reflexivity).
  assert (H3 : IngestSentiment.download Stub.http_get "tbmpx1px5.csv"
               = Ok "YYYY,Month,PX_MD,PX5_MD") by (vm_compute; reflexivity).
  split; [exact H1|]. split; [exact H2|]. split; [exact H3|].
  destruct (ingest_saves_three_keys Stub.http_get Stub.save_raw_json
              _ _ _ [] H1 H2 H3) as (data & Hrun & Hcs & _).
  exists data. split; [rewrite Hrun; reflexivity | exact Hcs].
Defined.

(** With both options, neither phase runs. *)
Lemma main_phases_witness :
  (IngestRun ∉ (main (Ok tt) (Ok tt) (Ok tt)
                  {| ingest_only := true; transform_only := true |}).2)
  /\ (TransformRun ∉ (main (Ok tt) (Ok tt) (Ok tt)
                        {| ingest_only := true; transform_only := true |}).2).
Proof.
  split; intros H;
    apply (main_phases (Ok tt) (Ok tt) (Ok tt)) in H; simpl in H.
  - destruct H as [_ H]. discriminate H.
  - destruct H as (_ & H & _). discriminate H.
Defined.
